(** * A shallow embedding of pysox's process runner and report parsers

    The modelled code is [sox/core.py] (the functions [sox], [soxi],
    [play], [_get_valid_formats], [is_number] and [all_equal]) and
    [sox/file_info.py] (the typed accessors, [silent], [info],
    [validate_input_file], [validate_input_file_list],
    [validate_output_file], [stat], [_stat_call] and [_parse_stat]).

    Modelling conventions:
    - Python [str] values are Rocq [string]s (ASCII characters); the
      [lower], [upper], [split] and [strip] methods are written out below.
    - Python [float] values are [PyFloat]: a finite value is an exact
      rational kept in lowest terms (rounding and overflow are not
      modelled), plus the two infinities and NaN.
    - The outside world (the process launcher, the UTF-8 decoder and the
      file system) is a set of Section variables; each launch attempt
      (a call to [subprocess.Popen] or [subprocess.check_output]) is logged,
      and the code runs in a writer-and-exception monad [M]. *)

From Stdlib Require Import String Ascii QArith ZArith List Bool Lia.
From stdpp Require Import base gmap strings list.
Import ListNotations.

Open Scope string_scope.
Open Scope nat_scope.

(* ------------------------------------------------------------------ *)
(** ** Python exceptions and the result monad *)

Inductive exn : Type :=
  | IndexError
  | TypeError
  | OSError
  | ValueError
  | AttributeError
  | KeyError
  | IOError
  | UnicodeDecodeError
  | SoxiError (returncode : Z)
  | CalledProcessError (returncode : Z).

Inductive res (A : Type) : Type :=
  | Ret (a : A)
  | Raise (e : exn).
Arguments Ret {A} a.
Arguments Raise {A} e.

(** One attempt to start an external process: the argument vector and the
    bytes handed to its standard input (if a pipe is attached). *)
Record Launch : Type := mkLaunch {
  l_args : list string;
  l_stdin : option (list Byte.byte)
}.

(** What the operating system does with a launch attempt: the process ran
    to completion ([returncode], captured stdout and stderr bytes), or
    [Popen] raised [OSError] (executable not found, permission denied) or
    [TypeError] (an argument of the wrong type). *)
Inductive Outcome : Type :=
  | Launched (returncode : Z) (out err : list Byte.byte)
  | LaunchOSError
  | LaunchTypeError.

(** Computations log the launches they attempt and return or raise. *)
Definition M (A : Type) : Type := (list Launch * res A)%type.

#[global] Instance M_ret : MRet M := fun A a => ([], Ret a).
#[global] Instance M_bind : MBind M := fun A B f m =>
  match m with
  | (l, Ret a) => let '(l', r) := f a in ((l ++ l')%list, r)
  | (l, Raise e) => (l, Raise e)
  end.

Definition raise {A} (e : exn) : M A := ([], Raise e).

(* ------------------------------------------------------------------ *)
(** ** Python floats *)

Inductive PyFloat : Type :=
  | PFin (q : Q)
  | PInf
  | NInf
  | PNaN.

Definition Qlt_bool (x y : Q) : bool := negb (Qle_bool y x).

(** [a * b] *)
Definition fmul (a b : PyFloat) : PyFloat :=
  match a, b with
  | PNaN, _ | _, PNaN => PNaN
  | PFin x, PFin y => PFin (Qred (x * y))
  | PFin x, PInf | PInf, PFin x =>
      if Qeq_bool x 0 then PNaN else if Qlt_bool x 0 then NInf else PInf
  | PFin x, NInf | NInf, PFin x =>
      if Qeq_bool x 0 then PNaN else if Qlt_bool x 0 then PInf else NInf
  | PInf, PInf | NInf, NInf => PInf
  | PInf, NInf | NInf, PInf => NInf
  end.

(** [a >= b]: every comparison with NaN is false. *)
Definition fge (a b : PyFloat) : bool :=
  match a, b with
  | PNaN, _ | _, PNaN => false
  | PInf, _ => true
  | _, NInf => true
  | NInf, _ => false
  | PFin _, PInf => false
  | PFin x, PFin y => Qle_bool y x
  end.

(** [a < b] *)
Definition flt (a b : PyFloat) : bool :=
  match a, b with
  | PNaN, _ | _, PNaN => false
  | _, NInf => false
  | NInf, _ => true
  | PInf, _ => false
  | PFin _, PInf => true
  | PFin x, PFin y => Qlt_bool x y
  end.

(** [a == 0.0] *)
Definition feq0 (a : PyFloat) : bool :=
  match a with PFin x => Qeq_bool x 0 | _ => false end.

Definition is_nan (a : PyFloat) : bool :=
  match a with PNaN => true | _ => false end.

(** [1000.0 ** k] *)
Definition fpow1000 (k : nat) : PyFloat := PFin (Qpower 1000 (Z.of_nat k)).

(* ------------------------------------------------------------------ *)
(** ** String methods *)

Definition char_in (c : ascii) (cs : list ascii) : bool :=
  existsb (Ascii.eqb c) cs.

(** [s.split(sep)] for a one-character separator. *)
Fixpoint str_split (sep : ascii) (s : string) : list string :=
  match s with
  | EmptyString => [""]
  | String c rest =>
      let parts := str_split sep rest in
      if Ascii.eqb c sep then "" :: parts
      else match parts with
           | p :: ps => String c p :: ps
           | [] => [String c EmptyString]
           end
  end.

Fixpoint lstrip (cs : list ascii) (s : string) : string :=
  match s with
  | EmptyString => EmptyString
  | String c rest => if char_in c cs then lstrip cs rest else s
  end.

Fixpoint rstrip (cs : list ascii) (s : string) : string :=
  match s with
  | EmptyString => EmptyString
  | String c rest =>
      let rest' := rstrip cs rest in
      if String.eqb rest' "" && char_in c cs then "" else String c rest'
  end.

(** [s.strip(chars)] removes the characters of [chars] at both ends. *)
Definition strip (cs : list ascii) (s : string) : string :=
  rstrip cs (lstrip cs s).

Definition char_lower (c : ascii) : ascii :=
  let n := nat_of_ascii c in
  if (65 <=? n) && (n <=? 90) then ascii_of_nat (n + 32) else c.

Definition char_upper (c : ascii) : ascii :=
  let n := nat_of_ascii c in
  if (97 <=? n) && (n <=? 122) then ascii_of_nat (n - 32) else c.

Fixpoint str_map (f : ascii -> ascii) (s : string) : string :=
  match s with
  | EmptyString => EmptyString
  | String c rest => String (f c) (str_map f rest)
  end.

Definition lower (s : string) : string := str_map char_lower s.

(** [s.replace(c, "")] *)
Fixpoint remove_char (c : ascii) (s : string) : string :=
  match s with
  | EmptyString => EmptyString
  | String d rest =>
      if Ascii.eqb d c then remove_char c rest else String d (remove_char c rest)
  end.

Definition nl : ascii := ascii_of_nat 10.
Definition cr : ascii := ascii_of_nat 13.

(** The characters [str.isspace] accepts among ASCII ones. *)
Definition py_whitespace : list ascii :=
  map ascii_of_nat [9; 10; 11; 12; 13; 28; 29; 30; 31; 32].

(** [s[-1]] and [s[:-1]]; [None] where Python raises [IndexError]. *)
Fixpoint last_char (s : string) : option ascii :=
  match s with
  | EmptyString => None
  | String c EmptyString => Some c
  | String _ rest => last_char rest
  end.

Fixpoint drop_last (s : string) : string :=
  match s with
  | EmptyString => EmptyString
  | String _ EmptyString => EmptyString
  | String c rest => String c (drop_last rest)
  end.

(** [s.index(c)] over a string of characters, when [c] occurs. *)
Fixpoint str_index (c : ascii) (s : string) : option nat :=
  match s with
  | EmptyString => None
  | String d rest =>
      if Ascii.eqb c d then Some 0
      else match str_index c rest with Some i => Some (S i) | None => None end
  end.

(* ------------------------------------------------------------------ *)
(** ** [float(s)] and [int(s)] on strings *)

Definition digit_val (c : ascii) : option nat :=
  let n := nat_of_ascii c in
  if (48 <=? n) && (n <=? 57) then Some (n - 48) else None.

Definition is_digit (c : ascii) : bool :=
  match digit_val c with Some _ => true | None => false end.

(** A run of digits in which single underscores may separate two digits,
    as Python's numeric literals allow; returns the digits read (in order)
    and the rest of the string. *)
Fixpoint digit_run (s : string) : list nat * string :=
  match s with
  | EmptyString => ([], EmptyString)
  | String c rest =>
      match digit_val c with
      | Some d =>
          match rest with
          | String u (String c2 _ as rest2) =>
              if Ascii.eqb u "_"%char && is_digit c2 then
                let '(ds, r) := digit_run rest2 in (d :: ds, r)
              else let '(ds, r) := digit_run rest in (d :: ds, r)
          | _ => let '(ds, r) := digit_run rest in (d :: ds, r)
          end
      | None => ([], s)
      end
  end.

Definition digits_value (ds : list nat) : Z :=
  fold_left (fun acc d => (10 * acc + Z.of_nat d)%Z) ds 0%Z.

(** An optional leading sign: [true] for a minus sign. *)
Definition take_sign (s : string) : bool * string :=
  match s with
  | String c rest =>
      if Ascii.eqb c "-"%char then (true, rest)
      else if Ascii.eqb c "+"%char then (false, rest)
      else (false, s)
  | EmptyString => (false, s)
  end.

Definition decimal_value (ip fp : list nat) (e : Z) : Q :=
  Qred (inject_Z (digits_value (ip ++ fp)) * Qpower 10 (e - Z.of_nat (length fp))).

Definition exponent_part (ip fp : list nat) (s : string) : option Q :=
  match s with
  | EmptyString => Some (decimal_value ip fp 0)
  | String c rest =>
      if Ascii.eqb c "e"%char || Ascii.eqb c "E"%char then
        let '(neg, r) := take_sign rest in
        match digit_run r with
        | ([], _) => None
        | (ed, EmptyString) =>
            let e := digits_value ed in
            Some (decimal_value ip fp (if neg then Z.opp e else e))
        | _ => None
        end
      else None
  end.

Definition decimal_literal (s : string) : option Q :=
  let '(ip, r1) := digit_run s in
  match r1 with
  | String c r2 =>
      if Ascii.eqb c "."%char then
        let '(fp, r3) := digit_run r2 in
        match ip, fp with
        | [], [] => None
        | _, _ => exponent_part ip fp r3
        end
      else match ip with [] => None | _ => exponent_part ip [] r1 end
  | EmptyString => match ip with [] => None | _ => exponent_part ip [] r1 end
  end.

(** [float(s)]: [None] where Python raises [ValueError]. *)
Definition py_float (s : string) : option PyFloat :=
  let t := strip py_whitespace s in
  let '(neg, body) := take_sign t in
  let b := lower body in
  if String.eqb b "inf" || String.eqb b "infinity" then
    Some (if neg then NInf else PInf)
  else if String.eqb b "nan" then Some PNaN
  else match decimal_literal body with
       | Some q => Some (PFin (if neg then Qred (- q) else q))
       | None => None
       end.

(** [int(s)]: [None] where Python raises [ValueError]. *)
Definition py_int (s : string) : option Z :=
  let t := strip py_whitespace s in
  let '(neg, body) := take_sign t in
  match digit_run body with
  | ([], _) => None
  | (ds, EmptyString) =>
      let v := digits_value ds in Some (if neg then Z.opp v else v)
  | _ => None
  end.

Example py_float_examples :
  py_float "128" = Some (PFin 128) /\ py_float " 1.5 " = Some (PFin (3 # 2)) /\
  py_float "0.164103" = Some (PFin (164103 # 1000000)) /\
  py_float "1_0e-1" = Some (PFin 1) /\ py_float "-inf" = Some NInf /\
  py_float "1_" = None /\ py_float "." = None /\ py_float "" = None.
Proof. vm_compute. repeat split. Qed.

Example py_int_examples :
  py_int "16" = Some 16%Z /\ py_int " -0 " = Some 0%Z /\ py_int "00" = Some 0%Z /\
  py_int "1.0" = None /\ py_int "" = None.
Proof. vm_compute. repeat split. Qed.

(* ------------------------------------------------------------------ *)
(** ** numpy arrays: shape, element lookup, [.T] and [.tobytes(order)] *)

(** An n-dimensional array: its shape and the element at each index
    tuple (only index tuples within the shape are ever read). *)
Record ndarray (A : Type) : Type := mkArr {
  shape : list nat;
  data : list nat -> A
}.
Arguments mkArr {A} shape data.
Arguments shape {A} _.
Arguments data {A} _ _.

(** Index tuples in C order: the last index varies fastest. *)
Fixpoint indices_C (sh : list nat) : list (list nat) :=
  match sh with
  | [] => [[]]
  | n :: sh' => flat_map (fun i => map (cons i) (indices_C sh')) (seq 0 n)
  end.

(** Index tuples in Fortran order: the first index varies fastest. *)
Fixpoint indices_F (sh : list nat) : list (list nat) :=
  match sh with
  | [] => [[]]
  | n :: sh' => flat_map (fun idx => map (fun i => i :: idx) (seq 0 n)) (indices_F sh')
  end.

(** [a.T] reverses the axes. *)
Definition transpose {A} (a : ndarray A) : ndarray A :=
  mkArr (rev (shape a)) (fun idx => data a (rev idx)).

Inductive order : Type := OrderC | OrderF.

(** [a.tobytes(order=...)]: the elements' bytes in the given order. *)
Definition tobytes {A} (elem_bytes : A -> list Byte.byte) (o : order) (a : ndarray A)
  : list Byte.byte :=
  flat_map (fun idx => elem_bytes (data a idx))
    (match o with OrderC => indices_C (shape a) | OrderF => indices_F (shape a) end).

(* ------------------------------------------------------------------ *)
(** ** Values of [sox]'s arguments and results *)

(** The [src_array] argument: [None], an [np.ndarray], or any other object. *)
Inductive src_arg (A : Type) : Type :=
  | NoSrc
  | NdArr (a : ndarray A)
  | OtherObj.
Arguments NoSrc {A}.
Arguments NdArr {A} a.
Arguments OtherObj {A}.

(** The [out] component: decoded text or raw bytes. *)
Inductive OutVal : Type :=
  | OStr (s : string)
  | OBytes (b : list Byte.byte).

Inductive warning : Type :=
  | WUnsupportedExt (ext : string)
  | WOverwrite (path : string).

Definition SOXI_ARGS : list string := ["B"; "b"; "c"; "a"; "D"; "e"; "t"; "s"; "r"].

(** The stat dictionary. *)
Abbreviation stat_dict := (gmap string (option PyFloat)).

Definition lift_res {A} (r : res A) : M A := ([], r).

(** [if args[0].lower() != name: args.insert(0, name) else: args[0] = name];
    [None] where [args[0]] raises [IndexError]. *)
Definition normalize_head (name : string) (args : list string) : option (list string) :=
  match args with
  | [] => None
  | a0 :: rest =>
      if negb (String.eqb (lower a0) name) then Some (name :: a0 :: rest)
      else Some (name :: rest)
  end.

(* ------------------------------------------------------------------ *)
(** ** Path helpers: [os.path.dirname] and [file_extension] *)

Fixpoint string_rev (s : string) : string :=
  match s with
  | EmptyString => EmptyString
  | String c rest => String.append (string_rev rest) (String c EmptyString)
  end.

Fixpoint drop_to_slash (s : string) : string :=
  match s with
  | EmptyString => EmptyString
  | String c rest => if Ascii.eqb c "/"%char then s else drop_to_slash rest
  end.

Fixpoint all_slashes (s : string) : bool :=
  match s with
  | EmptyString => true
  | String c rest => Ascii.eqb c "/"%char && all_slashes rest
  end.

(** [posixpath.dirname]: the text up to the last slash, trailing slashes
    removed unless it consists of slashes only. *)
Definition dirname (p : string) : string :=
  let head := string_rev (drop_to_slash (string_rev p)) in
  if negb (String.eqb head "") && negb (all_slashes head)
  then rstrip ["/"%char] head else head.

(** [PurePosixPath(p).name]: the last component, empty and [.] components
    dropped. *)
Definition path_name (p : string) : string :=
  let parts := filter (fun c => negb (String.eqb c "") && negb (String.eqb c "."))
                 (str_split "/"%char p) in
  List.last parts "".

Fixpoint str_rindex_go (c : ascii) (s : string) (i : nat) (found : option nat)
  : option nat :=
  match s with
  | EmptyString => found
  | String d rest =>
      str_rindex_go c rest (S i) (if Ascii.eqb c d then Some i else found)
  end.

(** [Path(p).suffix[1:].lower()]; the suffix is [name[i:]] for the last dot
    at [0 < i < len(name) - 1], and empty otherwise. *)
Definition file_extension (p : string) : string :=
  let name := path_name p in
  match str_rindex_go "."%char name 0 None with
  | Some i =>
      if (0 <? i) && (i <? String.length name - 1)
      then lower (substring (S i) (String.length name) name)
      else ""
  | None => ""
  end.

Example dirname_examples :
  dirname "a/b/c.wav" = "a/b" /\ dirname "c.wav" = "" /\ dirname "/c.wav" = "/" /\
  dirname "a//c.wav" = "a" /\ file_extension "a/b/C.WAV" = "wav" /\
  file_extension ".bashrc" = "" /\ file_extension "out" = "".
Proof. vm_compute. repeat split. Qed.

(* ------------------------------------------------------------------ *)
(** ** The modelled functions, over the outside world *)

Module Core.

Section World.

(** What a launch attempt does. *)
Variable run_process : Launch -> Outcome.
(** [bytes.decode("utf-8")]: [None] where it raises [UnicodeDecodeError]. *)
Variable decode_utf8 : list Byte.byte -> option string.
(** Element type of the numpy buffers handed to [sox] and its encoding. *)
Variable Elt : Type.
Variable elem_bytes : Elt -> list Byte.byte.

Definition launch (L : Launch) : M Outcome := ([L], Ret (run_process L)).

Definition decode (bs : list Byte.byte) : M string :=
  match decode_utf8 bs with
  | Some s => mret s
  | None => raise UnicodeDecodeError
  end.

(** [core.sox(args, src_array, decode_out_with_utf)] *)
Definition sox (args : list string) (src_array : src_arg Elt) (decode_out_with_utf : bool)
  : M (Z * option OutVal * option string) :=
  match normalize_head "sox" args with
  | None => raise IndexError
  | Some args =>
      match src_array with
      | NoSrc =>
          o ← launch (mkLaunch args None);
          match o with
          | Launched returncode out err =>
              out ← (if decode_out_with_utf then s ← decode out; mret (OStr s)
                     else mret (OBytes out));
              err ← decode err;
              mret (returncode, Some out, Some err)
          | LaunchOSError | LaunchTypeError => mret (1%Z, None, None)
          end
      | NdArr a =>
          o ← launch (mkLaunch args (Some (tobytes elem_bytes OrderF (transpose a))));
          match o with
          | Launched returncode out err =>
              err ← decode err;
              mret (returncode, Some (OBytes out), Some err)
          | LaunchOSError | LaunchTypeError => mret (1%Z, None, None)
          end
      | OtherObj =>
          (* the [TypeError] raised for a non-array is caught below *)
          mret (1%Z, None, None)
      end
  end.

(** [core.soxi(filepath, argument)] *)
Definition soxi (filepath argument : string) : M string :=
  if negb (existsb (String.eqb argument) SOXI_ARGS) then raise ValueError
  else
    let args := ["sox"; "--i"; String.append "-" argument; filepath] in
    o ← launch (mkLaunch args None);
    match o with
    | Launched returncode out _ =>
        if Z.eqb returncode 0 then
          shell_output ← decode out;
          mret (strip [nl; cr] shell_output)
        else raise (SoxiError returncode)
    | LaunchOSError => raise OSError
    | LaunchTypeError => raise TypeError
    end.

(** [core.play(args)] *)
Definition play (args : list string) : M bool :=
  match normalize_head "play" args with
  | None => raise IndexError
  | Some args =>
      o ← launch (mkLaunch args None);
      match o with
      | Launched status _ _ => mret (Z.eqb status 0)
      | LaunchOSError | LaunchTypeError => mret false
      end
  end.


(** [needle in s] for strings. *)
Fixpoint str_contains (needle s : string) : bool :=
  match s with
  | EmptyString => String.prefix needle s
  | String _ rest => String.prefix needle s || str_contains needle rest
  end.

(** [core._get_valid_formats()]; [NO_SOX] is the flag set by the package's
    [__init__]. [subprocess.check_output] raises [CalledProcessError] on a
    non-zero exit, which is not caught here. *)
Definition _get_valid_formats (NO_SOX : bool) : M (list string) :=
  if NO_SOX then mret []
  else
    o ← launch (mkLaunch ["sox"; "-h"] None);
    match o with
    | Launched returncode out _ =>
        if Z.eqb returncode 0 then
          so ← decode out;
          let so := str_split nl so in
          let idx := List.filter (fun i => str_contains "AUDIO FILE FORMATS:" (nth i so ""))
                       (seq 0 (length so)) in
          match idx with
          | [] => raise IndexError
          | idx :: _ => mret (skipn 3 (str_split " "%char (nth idx so "")))
          end
        else raise (CalledProcessError returncode)
    | LaunchOSError => raise OSError
    | LaunchTypeError => raise TypeError
    end.

End World.

(** The objects [is_number] is applied to: a [str], a [float], [None], or
    an object [float()] rejects with [TypeError] (no [__float__] or
    [__index__]). *)
Inductive pyobj : Type :=
  | ObjStr (s : string)
  | ObjFloat (f : PyFloat)
  | ObjNone
  | ObjOther.

(** [float(var)] *)
Definition float_of_obj (var : pyobj) : res PyFloat :=
  match var with
  | ObjStr s => match py_float s with Some f => Ret f | None => Raise ValueError end
  | ObjFloat f => Ret f
  | ObjNone | ObjOther => Raise TypeError
  end.

(** [core.is_number(var)] *)
Definition is_number (var : pyobj) : res bool :=
  match float_of_obj var with
  | Ret _ => Ret true
  | Raise ValueError => Ret false
  | Raise TypeError => Ret false
  | Raise e => Raise e
  end.

(** [core.all_equal(list_of_things)]: [len(set(list_of_things)) <= 1], for
    hashable values whose [==] is equality. *)
Definition all_equal `{Countable A} (list_of_things : list A) : bool :=
  bool_decide (size (list_to_set list_of_things : gset A) <= 1).

End Core.

Module FileInfo.

Section World.

Variable run_process : Launch -> Outcome.
Variable decode_utf8 : list Byte.byte -> option string.
(** [os.path.exists] / [Path.exists]. *)
Variable path_exists : string -> bool.
(** [os.access(p, os.W_OK)] for a non-empty path [p]. *)
Variable os_writable : string -> bool.
(** [os.getcwd()]. *)
Variable cwd : string.
(** [VALID_FORMATS], the probed list of extensions. *)
Variable VALID_FORMATS : list string.
Variable Elt : Type.
Variable elem_bytes : Elt -> list Byte.byte.

Local Abbreviation sox := (Core.sox run_process decode_utf8 Elt elem_bytes).
Local Abbreviation soxi := (Core.soxi run_process decode_utf8).

(** [os.access(p, os.W_OK)]: the empty path does not exist, so it is not
    accessible. *)
Definition os_access (p : string) : bool :=
  if String.eqb p "" then false else os_writable p.

(** [file_info.validate_input_file]; the unsupported-format message is only
    logged. *)
Definition validate_input_file (input_filepath : string) : M unit :=
  if path_exists input_filepath then mret () else raise IOError.

(** [file_info.validate_output_file]; returns the warnings it logs. *)
Definition validate_output_file (output_filepath : string) : res (list warning) :=
  if String.eqb output_filepath "-n" then Ret []
  else
    let nowrite_conditions :=
      [ negb (String.eqb (dirname output_filepath) "") || negb (os_access cwd);
        negb (os_access (dirname output_filepath)) ] in
    if forallb (fun b => b) nowrite_conditions then Raise IOError
    else
      let ext := file_extension output_filepath in
      Ret ((if existsb (String.eqb ext) VALID_FORMATS then [] else [WUnsupportedExt ext])
           ++ (if path_exists output_filepath then [WOverwrite output_filepath] else []))%list.

(** The accessors' handling of the reply of [soxi], after the call. *)
Definition bitdepth_of_output (output : string) : res (option Z) :=
  if String.eqb output "0" then Ret None
  else match py_int output with Some v => Ret (Some v) | None => Raise ValueError end.

Definition greek_prefixes : string := String (ascii_of_nat 0) "KMGTPEZY".

Definition bitrate_of_output (reply : string) : res (option PyFloat) :=
  let output := strip [cr; nl] reply in
  match last_char output with
  | None => Raise IndexError
  | Some c =>
      let suffix := char_upper c in
      if String.eqb output "0" then Ret None
      else match str_index suffix greek_prefixes with
           | Some i =>
               match py_float (drop_last output) with
               | Some f => Ret (Some (fmul f (fpow1000 i)))
               | None => Raise ValueError
               end
           | None =>
               match py_float (drop_last output) with
               | Some f => Ret (Some f)
               | None => Raise ValueError
               end
           end
  end.

Definition channels_of_output (output : string) : res Z :=
  match py_int output with Some v => Ret v | None => Raise ValueError end.

Definition duration_of_output (output : string) : res (option PyFloat) :=
  match py_float output with
  | None => Raise ValueError
  | Some f => if feq0 f then Ret None else Ret (Some f)
  end.

Definition num_samples_of_output (output : string) : res (option Z) :=
  if String.eqb output "0" then Ret None
  else match py_int output with Some v => Ret (Some v) | None => Raise ValueError end.

Definition bitdepth (input_filepath : string) : M (option Z) :=
  validate_input_file input_filepath;;
  output ← soxi input_filepath "b";
  lift_res (bitdepth_of_output output).

Definition bitrate (input_filepath : string) : M (option PyFloat) :=
  validate_input_file input_filepath;;
  output ← soxi input_filepath "B";
  lift_res (bitrate_of_output output).

Definition channels (input_filepath : string) : M Z :=
  validate_input_file input_filepath;;
  output ← soxi input_filepath "c";
  lift_res (channels_of_output output).

Definition duration (input_filepath : string) : M (option PyFloat) :=
  validate_input_file input_filepath;;
  output ← soxi input_filepath "D";
  lift_res (duration_of_output output).

Definition num_samples (input_filepath : string) : M (option Z) :=
  validate_input_file input_filepath;;
  output ← soxi input_filepath "s";
  lift_res (num_samples_of_output output).


Definition comments (input_filepath : string) : M string :=
  validate_input_file input_filepath;;
  output ← soxi input_filepath "a";
  mret output.

Definition encoding (input_filepath : string) : M string :=
  validate_input_file input_filepath;;
  output ← soxi input_filepath "e";
  mret output.

Definition file_type (input_filepath : string) : M string :=
  validate_input_file input_filepath;;
  output ← soxi input_filepath "t";
  mret output.

Definition sample_rate (input_filepath : string) : M PyFloat :=
  validate_input_file input_filepath;;
  output ← soxi input_filepath "r";
  match py_float output with Some f => mret f | None => raise ValueError end.

(** [file_info._stat_call] *)
Definition _stat_call (filepath : string) : M (option string) :=
  validate_input_file filepath;;
  r ← sox ["sox"; filepath; "-n"; "stat"] NoSrc true;
  let '(_, _, stat_output) := r in
  mret (option_map (remove_char cr) stat_output).

(** One line of the report, as the loop body of [_parse_stat] treats it. *)
Definition stat_line_entry (line : string) : option (string * option PyFloat) :=
  match str_split ":"%char line with
  | [key; v] => Some (key, py_float (strip [" "%char] v))
  | _ => None
  end.

(** The body of the loop of [_parse_stat]: [stat_dict[key] = val]. *)
Definition parse_stat_line (stat_dict : gmap string (option PyFloat)) (line : string)
  : gmap string (option PyFloat) :=
  match stat_line_entry line with
  | Some (key, val) => <[key := val]> stat_dict
  | None => stat_dict
  end.

(** [file_info._parse_stat]; [stat_output] is [None] or a [str], and
    [None.split] raises [AttributeError]. *)
Definition _parse_stat (stat_output : option string) : res stat_dict :=
  match stat_output with
  | None => Raise AttributeError
  | Some s => Ret (fold_left parse_stat_line (str_split nl s) ∅)
  end.

(** [file_info.stat] *)
Definition stat (filepath : string) : M stat_dict :=
  stat_output ← _stat_call filepath;
  lift_res (_parse_stat stat_output).

(** [x is not float("nan")]: the right operand is a float object created
    for the comparison, which is never the object stored in the
    dictionary, so the identity test always holds. *)
Definition is_not_new_nan_object (x : PyFloat) : bool := true.

(** [file_info.silent] *)
Definition silent (input_filepath : string) (threshold : PyFloat) : M bool :=
  validate_input_file input_filepath;;
  stat_dictionary ← stat input_filepath;
  match stat_dictionary !! "Mean    norm" with
  | None => raise KeyError
  | Some None => mret false
  | Some (Some mean_norm) =>
      if is_not_new_nan_object mean_norm then
        if fge mean_norm threshold then mret false else mret true
      else mret true
  end.


(** The argument of [validate_input_file_list]: a Python [list] of paths,
    or an object of another type. *)
Inductive list_arg : Type :=
  | PyList (l : list string)
  | NotAList.

(** The loop [for input_filepath in ...: validate_input_file(input_filepath)]. *)
Fixpoint validate_each (l : list string) : M unit :=
  match l with
  | [] => mret ()
  | p :: ps => validate_input_file p;; validate_each ps
  end.

(** [file_info.validate_input_file_list] *)
Definition validate_input_file_list (input_filepath_list : list_arg) : M unit :=
  match input_filepath_list with
  | NotAList => raise TypeError
  | PyList l => if length l <? 2 then raise ValueError else validate_each l
  end.

(** The values of the [info] dictionary. *)
Inductive info_val : Type :=
  | IInt (z : Z)
  | IFloat (f : PyFloat)
  | IStr (s : string)
  | IBool (b : bool)
  | INone.

Definition int_or_none (v : option Z) : info_val :=
  match v with Some z => IInt z | None => INone end.

Definition float_or_none (v : option PyFloat) : info_val :=
  match v with Some f => IFloat f | None => INone end.

(** [file_info.info]: the dictionary literal's values are computed in
    order; the dictionary is its list of items in insertion order.
    [silent] runs with its default threshold 0.001. *)
Definition info (filepath : string) : M (list (string * info_val)) :=
  c ← channels filepath;
  r ← sample_rate filepath;
  b ← bitdepth filepath;
  br ← bitrate filepath;
  d ← duration filepath;
  n ← num_samples filepath;
  e ← encoding filepath;
  s ← silent filepath (PFin (1 # 1000));
  mret [("channels", IInt c); ("sample_rate", IFloat r); ("bitdepth", int_or_none b);
        ("bitrate", float_or_none br); ("duration", float_or_none d);
        ("num_samples", int_or_none n); ("encoding", IStr e); ("silent", IBool s)].

End World.

End FileInfo.

Import Core FileInfo.


(* ------------------------------------------------------------------ *)
(** ** Vocabulary of the properties *)

(** Every character of [s] is one of [cs]. *)
Fixpoint only_chars (cs : list ascii) (s : string) : bool :=
  match s with
  | EmptyString => true
  | String c rest => char_in c cs && only_chars cs rest
  end.

(** The process [soxi] starts for a field code, and the one [_stat_call]
    starts. *)
Definition soxi_launch (p code : string) : Launch :=
  mkLaunch ["sox"; "--i"; String.append "-" code; p] None.

Definition stat_launch (p : string) : Launch := mkLaunch ["sox"; p; "-n"; "stat"] None.

(** [sep.join(parts)] for a one-character separator. *)
Fixpoint join (sep : ascii) (parts : list string) : string :=
  match parts with
  | [] => ""
  | [x] => x
  | x :: xs => String.append x (String sep (join sep xs))
  end.

(* ------------------------------------------------------------------ *)
(** ** Concrete worlds used to evaluate the code *)

(** A launcher that always fails to start a process. *)
Definition proc_oserror (L : Launch) : Outcome := LaunchOSError.

(** A launcher whose process exits with [rc] after printing [out]. *)
Definition proc_reply (rc : Z) (out : list Byte.byte) (L : Launch) : Outcome :=
  Launched rc out [].

(** UTF-8 decoding restricted to ASCII input (where it is the identity on
    code points); other bytes are reported as a decoding error. *)
Fixpoint decode_ascii (bs : list Byte.byte) : option string :=
  match bs with
  | [] => Some EmptyString
  | b :: rest =>
      let n := Byte.to_nat b in
      if n <? 128 then
        match decode_ascii rest with
        | Some s => Some (String (ascii_of_nat n) s)
        | None => None
        end
      else None
  end.

(** A launcher whose process exits with 0 and prints [report] on stderr,
    as [sox ... -n stat] does. *)
Definition proc_stat_report (report : string) (L : Launch) : Outcome :=
  Launched 0 [] (list_byte_of_string report).

Definition all_exist (p : string) : bool := true.

Definition byte_of_elem (b : Byte.byte) : list Byte.byte := [b].

(** The 2x2 array [[0x00, 0x01], [0x10, 0x11]]. *)
Definition arr22 : ndarray Byte.byte :=
  mkArr [2; 2] (fun idx => match idx with
                          | [0; 1] => Byte.x01
                          | [1; 0] => Byte.x10
                          | [1; 1] => Byte.x11
                          | _ => Byte.x00
                          end).

(** A file whose [soxi] replies are those of a 2-channel 44.1 kHz
    16-bit WAV, and whose stat report has a mean norm of 0.2. *)
Definition proc_info (L : Launch) : Outcome :=
  match l_args L with
  | [_; _; "-c"; _] => Launched 0 (list_byte_of_string "2") []
  | [_; _; "-r"; _] => Launched 0 (list_byte_of_string "44100") []
  | [_; _; "-b"; _] => Launched 0 (list_byte_of_string "16") []
  | [_; _; "-B"; _] => Launched 0 (list_byte_of_string "1.41M") []
  | [_; _; "-D"; _] => Launched 0 (list_byte_of_string "3.5") []
  | [_; _; "-s"; _] => Launched 0 (list_byte_of_string "154350") []
  | [_; _; "-e"; _] => Launched 0 (list_byte_of_string "Signed Integer PCM") []
  | _ => Launched 0 [] (list_byte_of_string "Mean    norm:  0.2")
  end.

(** The start of a [sox -h] help text. *)
Definition help_text : string :=
  "SoX v14" +:+ String nl ("AUDIO FILE FORMATS: 8svx aif wav" +:+ String nl "").

(* ------------------------------------------------------------------ *)
(** ** Properties *)

Section Proofs.

Variable run_process : Launch -> Outcome.
Variable decode_utf8 : list Byte.byte -> option string.
Variable path_exists : string -> bool.
Variable os_writable : string -> bool.
Variable cwd : string.
Variable VALID_FORMATS : list string.
Variable Elt : Type.
Variable elem_bytes : Elt -> list Byte.byte.

Local Abbreviation sox := (sox run_process decode_utf8 Elt elem_bytes).
Local Abbreviation soxi := (soxi run_process decode_utf8).
Local Abbreviation play := (play run_process).
Local Abbreviation _stat_call := (_stat_call run_process decode_utf8 path_exists Elt elem_bytes).
Local Abbreviation stat := (stat run_process decode_utf8 path_exists Elt elem_bytes).
Local Abbreviation silent := (silent run_process decode_utf8 path_exists Elt elem_bytes).
Local Abbreviation validate_output_file :=
  (validate_output_file path_exists os_writable cwd VALID_FORMATS).
Local Abbreviation os_access := (os_access os_writable).

Ltac unfold_monad := cbv [mbind M_bind mret M_ret launch raise lift_res decode] in *.

Ltac destruct_decodes :=
  repeat match goal with
         | |- context [if ?b then _ else _] => destruct b
         | |- context [decode_utf8 ?x] => destruct (decode_utf8 x)
         end.

(** [sox] attempts at most one launch, with the normalised arguments. *)
Lemma sox_launches args src dec :
  fst (sox args src dec) =
  match normalize_head "sox" args, src with
  | Some a, NoSrc => [mkLaunch a None]
  | Some a, NdArr arr => [mkLaunch a (Some (tobytes elem_bytes OrderF (transpose arr)))]
  | _, _ => []
  end.
Proof.
  unfold Core.sox. unfold_monad.
  destruct (normalize_head "sox" args); [|reflexivity].
  destruct src; [| |reflexivity]; simpl;
    destruct (run_process _); try reflexivity;
    destruct_decodes; reflexivity.
Qed.

Lemma play_launches args :
  fst (play args) =
  match normalize_head "play" args with
  | Some a => [mkLaunch a None]
  | None => []
  end.
Proof.
  unfold Core.play. unfold_monad.
  destruct (normalize_head "play" args); [|reflexivity].
  simpl. destruct (run_process _); reflexivity.
Qed.

(** C1: when [sox]'s launch attempt raises [OSError] or [TypeError], [sox]
    returns exactly [(1, None, None)]; so does a [src_array] that is not an
    array, whose [TypeError] is caught by the same handler. *)
Theorem sox_launch_failure_sentinel (args : list string) (dec : bool) :
  (forall (src : src_arg Elt) (L : Launch),
     In L (fst (sox args src dec)) ->
     run_process L = LaunchOSError \/ run_process L = LaunchTypeError ->
     snd (sox args src dec) = Ret (1%Z, None, None)) /\
  (args <> [] -> snd (sox args OtherObj dec) = Ret (1%Z, None, None)).
Proof.
  split.
  - intros src L HIn Hfail. rewrite sox_launches in HIn.
    unfold Core.sox. unfold_monad.
    destruct (normalize_head "sox" args) as [a|]; [|contradiction].
    destruct src; try contradiction; destruct HIn as [<- | []]; simpl;
      destruct Hfail as [E | E]; rewrite E; reflexivity.
  - intros Hne. destruct args as [|a0 rest]; [congruence|].
    unfold Core.sox, normalize_head. destruct (negb _); reflexivity.
Qed.

(** C9: every launch of [sox] or [play] receives the argument list whose
    first element is the canonical tool name: a first element equal to it
    up to case is replaced by it, otherwise the name is put in front; the
    rest of the list is unchanged. *)
Theorem exec_args_canonical_name (a0 : string) (rest : list string)
    (src : src_arg Elt) (dec : bool) :
  (forall L, In L (fst (sox (a0 :: rest) src dec)) ->
     l_args L = (if String.eqb (lower a0) "sox" then "sox" :: rest else "sox" :: a0 :: rest)) /\
  (forall L, In L (fst (play (a0 :: rest))) ->
     l_args L = (if String.eqb (lower a0) "play" then "play" :: rest else "play" :: a0 :: rest)).
Proof.
  split; intros L HIn.
  - rewrite sox_launches in HIn. unfold normalize_head in HIn.
    destruct (String.eqb (lower a0) "sox"); simpl in HIn;
      destruct src; simpl in HIn; try contradiction;
      destruct HIn as [<- | []]; reflexivity.
  - rewrite play_launches in HIn. unfold normalize_head in HIn.
    destruct (String.eqb (lower a0) "play"); simpl in HIn;
      destruct HIn as [<- | []]; reflexivity.
Qed.

(** C10: when the [stat] call of [sox] fails to launch, [_stat_call]
    returns [None] and [stat] raises [AttributeError] on [None.split]: it
    returns no dictionary. *)
Theorem stat_launch_failure_raises (filepath : string) :
  path_exists filepath = true ->
  run_process (mkLaunch ["sox"; filepath; "-n"; "stat"] None) = LaunchOSError \/
  run_process (mkLaunch ["sox"; filepath; "-n"; "stat"] None) = LaunchTypeError ->
  snd (_stat_call filepath) = Ret None /\
  snd (stat filepath) = Raise AttributeError /\
  (forall d, snd (stat filepath) <> Ret d).
Proof.
  intros Hex Hfail.
  assert (Hcall : snd (_stat_call filepath) = Ret None).
  { unfold FileInfo._stat_call, validate_input_file, Core.sox. rewrite Hex.
    unfold_monad. simpl. destruct Hfail as [E | E]; rewrite E; reflexivity. }
  assert (Hstat : snd (stat filepath) = Raise AttributeError).
  { unfold FileInfo.stat. unfold_monad.
    destruct (_stat_call filepath) as [ls r] eqn:Ec. simpl in Hcall. subst r.
    reflexivity. }
  split; [exact Hcall|]. split; [exact Hstat|].
  intros d. rewrite Hstat. discriminate.
Qed.

Ltac forall_warnings :=
  apply List.Forall_forall; intros ? Hin; apply in_app_or in Hin;
  destruct Hin as [Hin | Hin]; case_match; simpl in Hin; intuition (subst; auto).

(** C8: [validate_output_file "-n"] succeeds with no warning whatever the
    file system; for any other path it raises [IOError] exactly when the
    destination directory (the path's directory, or the working directory
    for a bare file name) is not writable, and otherwise it succeeds,
    logging at most an unsupported-extension and an overwrite warning. *)
Theorem validate_output_file_contract :
  validate_output_file "-n" = Ret [] /\
  forall p : string, p <> "-n" ->
    let dest := if String.eqb (dirname p) "" then cwd else dirname p in
    (os_access dest = false -> validate_output_file p = Raise IOError) /\
    (os_access dest = true ->
       exists ws, validate_output_file p = Ret ws /\
         Forall (fun w => w = WUnsupportedExt (file_extension p) \/ w = WOverwrite p) ws).
Proof.
  split; [reflexivity|].
  intros p Hp dest. unfold FileInfo.validate_output_file.
  apply String.eqb_neq in Hp. rewrite Hp.
  subst dest. destruct (String.eqb (dirname p) "") eqn:Ed.
  - apply String.eqb_eq in Ed. rewrite Ed.
    assert (E0 : os_access "" = false) by reflexivity. rewrite E0. simpl.
    split; intros Hw; rewrite Hw; simpl; [reflexivity|].
    eexists; split; [reflexivity|].
    forall_warnings.
  - simpl. split; intros Hw; rewrite Hw; simpl; [reflexivity|].
    eexists; split; [reflexivity|].
    forall_warnings.
Qed.


(** C5: [bitdepth] and [num_samples] map the reply ["0"] to [None] and any
    other integer reply to its value; [channels] takes every integer reply,
    ["0"] included, literally; [duration] maps a reply that parses to 0.0
    to [None] and any other float reply to its value. *)
Theorem accessor_reply_sentinels (s : string) :
  (s = "0" ->
     bitdepth_of_output s = Ret None /\ num_samples_of_output s = Ret None /\
     channels_of_output s = Ret 0%Z) /\
  (forall v, s <> "0" -> py_int s = Some v ->
     bitdepth_of_output s = Ret (Some v) /\ num_samples_of_output s = Ret (Some v)) /\
  (forall v, py_int s = Some v -> channels_of_output s = Ret v) /\
  (forall f, py_float s = Some f -> feq0 f = true -> duration_of_output s = Ret None) /\
  (forall f, py_float s = Some f -> feq0 f = false -> duration_of_output s = Ret (Some f)).
Proof.
  split; [intros ->; repeat split; reflexivity|].
  split.
  { intros v Hne Hv. apply String.eqb_neq in Hne.
    unfold bitdepth_of_output, num_samples_of_output. rewrite Hne, Hv. split; reflexivity. }
  split.
  { intros v Hv. unfold channels_of_output. rewrite Hv. reflexivity. }
  split; intros f Hf H0; unfold duration_of_output; rewrite Hf, H0; reflexivity.
Qed.

(** C2 (defect): the bit-rate reply with a suffix is scaled by the power of
    1000 of the suffix and ["0"] is unavailable, but a reply without suffix
    loses its last digit: ["128"] gives 12.0, not 128.0. *)
Theorem bitrate_reply_without_suffix_loses_digit :
  bitrate_of_output "128k" = Ret (Some (PFin 128000)) /\
  bitrate_of_output "1.5M" = Ret (Some (PFin 1500000)) /\
  bitrate_of_output "0" = Ret None /\
  bitrate_of_output "128" = Ret (Some (PFin 12)) /\
  bitrate_of_output "128" <> Ret (Some (PFin 128)).
Proof. vm_compute. repeat split. discriminate. Qed.

Lemma not_fge_flt (a b : PyFloat) :
  is_nan a = false -> is_nan b = false -> negb (fge a b) = flt a b.
Proof. destruct a, b; simpl; intros; try discriminate; reflexivity. Qed.

Lemma stat_ret_exists (fp : string) (d : stat_dict) :
  snd (stat fp) = Ret d -> path_exists fp = true.
Proof.
  unfold FileInfo.stat, FileInfo._stat_call, validate_input_file.
  destruct (path_exists fp); [reflexivity|]. unfold_monad. simpl. discriminate.
Qed.

(** C7 (as amended): when [stat] yields a dictionary whose ["Mean    norm"]
    entry is [v], [silent] returns [False] for [None], [True] for NaN, and
    for any other float [m] the value [not (m >= threshold)]; that is
    [m < threshold] when the threshold is not NaN (with threshold 0.001,
    0.0005 is silent and 0.5 is not), and [True] for a NaN threshold. *)
Theorem silent_decided_by_mean_norm (fp : string) (threshold : PyFloat)
    (d : stat_dict) (v : option PyFloat) :
  snd (stat fp) = Ret d -> d !! "Mean    norm" = Some v ->
  snd (silent fp threshold) =
    Ret (match v with None => false | Some m => negb (fge m threshold) end) /\
  (v = None -> snd (silent fp threshold) = Ret false) /\
  (v = Some PNaN -> snd (silent fp threshold) = Ret true) /\
  (forall m, v = Some m -> is_nan m = false -> is_nan threshold = false ->
     snd (silent fp threshold) = Ret (flt m threshold)) /\
  (forall m, v = Some m -> threshold = PNaN -> snd (silent fp threshold) = Ret true) /\
  negb (fge (PFin (5 # 10000)) (PFin (1 # 1000))) = true /\
  negb (fge (PFin (1 # 2)) (PFin (1 # 1000))) = false.
Proof.
  intros Hd Hv.
  assert (Hmain : snd (silent fp threshold) =
    Ret (match v with None => false | Some m => negb (fge m threshold) end)).
  { pose proof (stat_ret_exists fp d Hd) as Hex.
    unfold FileInfo.silent, validate_input_file. rewrite Hex. unfold_monad.
    destruct (stat fp) as [ls r] eqn:Es. simpl in Hd. subst r. simpl.
    rewrite Hv. destruct v as [m|]; [|reflexivity].
    unfold is_not_new_nan_object. destruct (fge m threshold); reflexivity. }
  split; [exact Hmain|].
  split; [intros ->; exact Hmain|].
  split; [intros ->; rewrite Hmain; reflexivity|].
  split; [intros m -> Hm Ht; rewrite Hmain, not_fge_flt; auto|].
  split; [intros m -> ->; rewrite Hmain; destruct m; reflexivity|].
  split; reflexivity.
Qed.


Lemma stat_line_entry_split (line key : string) (val : option PyFloat) :
  stat_line_entry line = Some (key, val) <->
  exists r, str_split ":"%char line = [key; r] /\ val = py_float (strip [" "%char] r).
Proof.
  unfold stat_line_entry. split.
  - destruct (str_split ":"%char line) as [|k [|r [|]]]; try discriminate.
    intros H. injection H as <- <-. eauto.
  - intros (r & -> & ->). reflexivity.
Qed.

Lemma parse_stat_lines_other (lines : list string) (key : string) (d : stat_dict) :
  (forall line, In line lines -> forall v, stat_line_entry line <> Some (key, v)) ->
  fold_left parse_stat_line lines d !! key = d !! key.
Proof.
  revert d. induction lines as [|line lines IH]; intros d Hno; [reflexivity|].
  simpl. rewrite IH by (intros; apply Hno; right; assumption).
  unfold parse_stat_line. destruct (stat_line_entry line) as [[k v]|] eqn:E; [|reflexivity].
  destruct (decide (k = key)) as [->|Hne].
  - exfalso. apply (Hno line (or_introl eq_refl) v). exact E.
  - apply lookup_insert_ne. exact Hne.
Qed.

Lemma parse_stat_lines_last (l1 l2 : list string) (line key : string)
    (v : option PyFloat) (d : stat_dict) :
  stat_line_entry line = Some (key, v) ->
  (forall line', In line' l2 -> forall v', stat_line_entry line' <> Some (key, v')) ->
  fold_left parse_stat_line (l1 ++ line :: l2)%list d !! key = Some v.
Proof.
  intros He Hno. rewrite fold_left_app. simpl.
  rewrite parse_stat_lines_other by exact Hno.
  unfold parse_stat_line at 1. rewrite He. apply lookup_insert_eq.
Qed.

Lemma parse_stat_lines_found (lines : list string) (key : string)
    (v : option PyFloat) (d : stat_dict) :
  fold_left parse_stat_line lines d !! key = Some v ->
  (d !! key = Some v /\
   forall line, In line lines -> forall v', stat_line_entry line <> Some (key, v')) \/
  (exists l1 line l2, lines = (l1 ++ line :: l2)%list /\ stat_line_entry line = Some (key, v) /\
     forall line', In line' l2 -> forall v', stat_line_entry line' <> Some (key, v')).
Proof.
  revert d. induction lines as [|line lines IH]; intros d H.
  - left. split; [exact H | intros ? []].
  - simpl in H. destruct (IH _ H) as [[Hd Hno] | (l1 & ln & l2 & -> & He & Hno)].
    + unfold parse_stat_line in Hd.
      destruct (stat_line_entry line) as [[k w]|] eqn:E.
      * destruct (decide (k = key)) as [->|Hne].
        -- rewrite lookup_insert_eq in Hd. injection Hd as ->.
           right. exists [], line, lines. auto.
        -- rewrite lookup_insert_ne in Hd by exact Hne.
           left. split; [exact Hd|]. intros l [<-|Hl] v'; [|apply Hno; exact Hl].
           rewrite E. intros Hkw. injection Hkw as Hk _. contradiction.
      * left. split; [exact Hd|]. intros l [<-|Hl] v'; [rewrite E; discriminate|].
        apply Hno; exact Hl.
    + right. exists (line :: l1), ln, l2. auto.
Qed.

(** C3 (as amended): [_parse_stat] maps a key to a value exactly when some
    line of the report has exactly one colon, that key verbatim before it,
    and after it a text whose space-trimmed float parse (or [None]) is the
    value, and no later line with exactly one colon has the same key: a
    repeated key keeps its last line's value. Lines with no colon or with
    several colons give no entry. The line
    ["Mean    norm         :      0.164103"] gives the key
    ["Mean    norm         "], trailing spaces included, mapped to
    0.164103. *)
Theorem parse_stat_entries (s : string) :
  (exists d, _parse_stat (Some s) = Ret d /\
   forall (key : string) (v : option PyFloat),
     d !! key = Some v <->
     exists l1 line l2 r,
       str_split nl s = (l1 ++ line :: l2)%list /\
       str_split ":"%char line = [key; r] /\ v = py_float (strip [" "%char] r) /\
       forall line', In line' l2 -> forall r', str_split ":"%char line' <> [key; r']) /\
  _parse_stat (Some "Mean    norm         :      0.164103") =
    Ret {[ "Mean    norm         " := Some (PFin (164103 # 1000000)) ]}.
Proof.
  split; [|vm_compute; reflexivity].
  eexists; split; [reflexivity|]. intros key v. split.
  - intros H. destruct (parse_stat_lines_found _ _ _ _ H) as [[Hd _] | (l1 & ln & l2 & Hs & He & Hno)].
    + rewrite lookup_empty in Hd. discriminate.
    + apply stat_line_entry_split in He as (r & Hr & Hv).
      exists l1, ln, l2, r. repeat split; auto.
      intros l' Hl' r' Hsp. apply (Hno l' Hl' (py_float (strip [" "%char] r'))).
      apply stat_line_entry_split. eauto.
  - intros (l1 & ln & l2 & r & Hs & Hr & Hv & Hno). rewrite Hs.
    apply parse_stat_lines_last.
    + apply stat_line_entry_split. eauto.
    + intros l' Hl' v' He. apply stat_line_entry_split in He as (r' & Hr' & _).
      exact (Hno l' Hl' r' Hr').
Qed.


Lemma lstrip_spec (cs : list ascii) (s : string) :
  exists pre, s = String.append pre (lstrip cs s) /\ only_chars cs pre = true /\
    (lstrip cs s = "" \/
     exists c rest, lstrip cs s = String c rest /\ char_in c cs = false).
Proof.
  induction s as [|c rest IH]; simpl.
  - exists "". auto.
  - destruct (char_in c cs) eqn:Ec.
    + destruct IH as (pre & Hs & Hp & Hl). exists (String c pre). simpl.
      rewrite Ec, Hp. split; [rewrite Hs at 1; reflexivity | auto].
    + exists "". split; [reflexivity|]. split; [reflexivity|]. right. eauto.
Qed.

Lemma rstrip_spec (cs : list ascii) (s : string) :
  exists post, s = String.append (rstrip cs s) post /\ only_chars cs post = true /\
    (rstrip cs s = "" \/ exists c, last_char (rstrip cs s) = Some c /\ char_in c cs = false).
Proof.
  induction s as [|c rest IH]; simpl.
  - exists "". auto.
  - destruct IH as (post & Hs & Hp & Hl).
    destruct (String.eqb (rstrip cs rest) "") eqn:Er; destruct (char_in c cs) eqn:Ec; simpl.
    + apply String.eqb_eq in Er. rewrite Er in Hs. change ("" +:+ post) with post in Hs.
      exists (String c post). rewrite Hs. split; [reflexivity|].
      simpl. rewrite Ec, Hp. auto.
    + apply String.eqb_eq in Er. rewrite Er in Hs |- *.
      change ("" +:+ post) with post in Hs.
      exists post. split; [rewrite Hs at 1; reflexivity|]. split; [exact Hp|].
      right. exists c. auto.
    + apply String.eqb_neq in Er. exists post. rewrite Hs at 1.
      split; [reflexivity|]. split; [exact Hp|]. right.
      destruct Hl as [Hl | (c' & Hc' & Hn)]; [contradiction|].
      exists c'. split; [|exact Hn]. destruct (rstrip cs rest); [contradiction|exact Hc'].
    + apply String.eqb_neq in Er. exists post. rewrite Hs at 1.
      split; [reflexivity|]. split; [exact Hp|]. right.
      destruct Hl as [Hl | (c' & Hc' & Hn)]; [contradiction|].
      exists c'. split; [|exact Hn]. destruct (rstrip cs rest); [contradiction|exact Hc'].
Qed.

(** [s.strip(cs)] is [s] with its leading and trailing run of characters
    of [cs] removed. *)
Lemma strip_spec (cs : list ascii) (s : string) :
  exists pre post,
    s = String.append pre (String.append (strip cs s) post) /\
    only_chars cs pre = true /\ only_chars cs post = true /\
    (strip cs s = "" \/
     ((exists c rest, strip cs s = String c rest /\ char_in c cs = false) /\
      (exists c, last_char (strip cs s) = Some c /\ char_in c cs = false))).
Proof.
  destruct (lstrip_spec cs s) as (pre & Hs & Hp & Hl).
  destruct (rstrip_spec cs (lstrip cs s)) as (post & Hs' & Hq & Hr).
  exists pre, post. unfold strip. rewrite <- Hs', <- Hs.
  split; [reflexivity|]. split; [exact Hp|]. split; [exact Hq|].
  destruct Hl as [Hl | (c & rest & Hl & Hc)].
  - left. rewrite Hl. reflexivity.
  - destruct Hr as [Hr | Hr]; [left; exact Hr|]. right. split; [|exact Hr].
    exists c, (rstrip cs rest). rewrite Hl. simpl. rewrite Hc, andb_false_r. auto.
Qed.

Lemma soxi_args_In (argument : string) :
  existsb (String.eqb argument) SOXI_ARGS = true <-> In argument SOXI_ARGS.
Proof.
  rewrite existsb_exists. split.
  - intros (x & Hx & He). apply String.eqb_eq in He. subst. exact Hx.
  - intros H. exists argument. split; [exact H | apply String.eqb_refl].
Qed.

(** C4 (as amended): an argument outside [SOXI_ARGS] raises [ValueError]
    and launches nothing; otherwise [soxi] launches [sox --i -<arg> <path>]
    once, raises [SoxiError] with the exit code when it is not zero, and on
    success returns the decoded output with its leading and trailing
    newline and carriage-return characters removed. *)
Theorem soxi_contract (filepath argument : string) :
  (~ In argument SOXI_ARGS -> soxi filepath argument = ([], Raise ValueError)) /\
  (In argument SOXI_ARGS ->
   let L := mkLaunch ["sox"; "--i"; String.append "-" argument; filepath] None in
   (forall rc out err, run_process L = Launched rc out err -> rc <> 0%Z ->
      soxi filepath argument = ([L], Raise (SoxiError rc))) /\
   (forall out err text, run_process L = Launched 0 out err -> decode_utf8 out = Some text ->
      exists result pre post,
        soxi filepath argument = ([L], Ret result) /\
        text = String.append pre (String.append result post) /\
        only_chars [nl; cr] pre = true /\ only_chars [nl; cr] post = true /\
        (result = "" \/
         ((exists c rest, result = String c rest /\ char_in c [nl; cr] = false) /\
          (exists c, last_char result = Some c /\ char_in c [nl; cr] = false))))).
Proof.
  split.
  - intros Hn. unfold Core.soxi.
    destruct (existsb (String.eqb argument) SOXI_ARGS) eqn:E.
    + apply soxi_args_In in E. contradiction.
    + reflexivity.
  - intros Hin L. apply soxi_args_In in Hin.
    unfold Core.soxi. rewrite Hin. simpl negb. cbv iota. fold L.
    split.
    + intros rc out err Hrun Hrc. unfold_monad. rewrite Hrun.
      apply Z.eqb_neq in Hrc. rewrite Hrc. reflexivity.
    + intros out err text Hrun Hdec. unfold_monad. rewrite Hrun. simpl.
      rewrite Hdec. destruct (strip_spec [nl; cr] text) as (pre & post & Hs & Hp & Hq & He).
      exists (strip [nl; cr] text), pre, post. auto.
Qed.


Lemma flat_map_flat_map_assoc {A B C} (f : A -> list B) (g : B -> list C) (xs : list A) :
  flat_map g (flat_map f xs) = flat_map (fun x => flat_map g (f x)) xs.
Proof. induction xs as [|x xs IH]; simpl; [reflexivity|]. rewrite flat_map_app, IH. reflexivity. Qed.

Lemma map_flat_map_distr {A B C} (f : A -> list B) (h : B -> C) (xs : list A) :
  map h (flat_map f xs) = flat_map (fun x => map h (f x)) xs.
Proof. induction xs as [|x xs IH]; simpl; [reflexivity|]. rewrite map_app, IH. reflexivity. Qed.

Lemma flat_map_map_fuse {A B C} (h : A -> B) (g : B -> list C) (ys : list A) :
  flat_map g (map h ys) = flat_map (fun y => g (h y)) ys.
Proof. induction ys as [|y ys IH]; simpl; [reflexivity|]. rewrite IH. reflexivity. Qed.

(** Adding a last axis: its index varies slowest in Fortran order. *)
Lemma indices_F_snoc (l : list nat) (n : nat) :
  indices_F (l ++ [n])%list =
  flat_map (fun i => map (fun idx => (idx ++ [i])%list) (indices_F l)) (seq 0 n).
Proof.
  induction l as [|m l IH]; simpl.
  - rewrite app_nil_r. induction (seq 0 n) as [|i xs IHxs]; simpl; [reflexivity|].
    rewrite IHxs. reflexivity.
  - rewrite IH, flat_map_flat_map_assoc. apply flat_map_ext. intros i.
    rewrite map_flat_map_distr, flat_map_map_fuse. apply flat_map_ext. intros idx.
    rewrite map_map. reflexivity.
Qed.

(** Fortran order on the reversed shape lists the reversed C-order tuples. *)
Lemma indices_F_rev (sh : list nat) :
  indices_F (rev sh) = map (@rev nat) (indices_C sh).
Proof.
  induction sh as [|n sh IH]; [reflexivity|].
  simpl rev. rewrite indices_F_snoc, IH. simpl indices_C.
  rewrite map_flat_map_distr. apply flat_map_ext. intros i.
  rewrite !map_map. reflexivity.
Qed.

(** [a.T.tobytes(order="F")] equals [a.tobytes(order="C")]. *)
Lemma tobytes_F_transpose {A} (eb : A -> list Byte.byte) (a : ndarray A) :
  tobytes eb OrderF (transpose a) = tobytes eb OrderC a.
Proof.
  unfold tobytes, transpose. simpl. rewrite indices_F_rev, flat_map_map_fuse.
  apply flat_map_ext. intros idx. rewrite rev_involutive. reflexivity.
Qed.

(** C6 (as amended): the bytes [sox] writes to the standard input of the
    process for an array payload are [src_array.T.tobytes(order="F")],
    which is the C-order (row-major) serialization of the array itself:
    for a samples-by-channels buffer, the channels of each sample are
    contiguous (interleaved samples). *)
Theorem sox_stdin_row_major (args : list string) (a : ndarray Elt) (dec : bool) (L : Launch) :
  In L (fst (sox args (NdArr a) dec)) ->
  l_stdin L = Some (tobytes elem_bytes OrderF (transpose a)) /\
  l_stdin L = Some (tobytes elem_bytes OrderC a).
Proof.
  intros HIn. rewrite sox_launches in HIn.
  destruct (normalize_head "sox" args); [|contradiction].
  destruct HIn as [<- | []]. simpl. rewrite tobytes_F_transpose. split; reflexivity.
Qed.

(* ------------------------------------------------------------------ *)
(** *** The remaining accessors and [info] *)

Local Abbreviation validate_input_file := (validate_input_file path_exists).
Local Abbreviation bitdepth := (bitdepth run_process decode_utf8 path_exists).
Local Abbreviation bitrate := (bitrate run_process decode_utf8 path_exists).
Local Abbreviation channels := (channels run_process decode_utf8 path_exists).
Local Abbreviation comments := (comments run_process decode_utf8 path_exists).
Local Abbreviation duration := (duration run_process decode_utf8 path_exists).
Local Abbreviation encoding := (encoding run_process decode_utf8 path_exists).
Local Abbreviation file_type := (file_type run_process decode_utf8 path_exists).
Local Abbreviation num_samples := (num_samples run_process decode_utf8 path_exists).
Local Abbreviation sample_rate := (sample_rate run_process decode_utf8 path_exists).
Local Abbreviation info := (info run_process decode_utf8 path_exists Elt elem_bytes).

Lemma bind_ret_inv {A B} (m : M A) (f : A -> M B) (v : B) :
  snd (mbind f m) = Ret v ->
  exists a, snd m = Ret a /\ snd (f a) = Ret v /\ fst (mbind f m) = (fst m ++ fst (f a))%list.
Proof.
  destruct m as [l [a|e]]; cbv [mbind M_bind]; simpl.
  - destruct (f a) as [l' r] eqn:E. simpl. intros ->. exists a. rewrite E. auto.
  - discriminate.
Qed.

(** A continuation that launches nothing adds nothing to the log. *)
Lemma fst_bind_quiet {A B} (m : M A) (f : A -> M B) :
  (forall a, fst (f a) = []) -> fst (mbind f m) = fst m.
Proof.
  intros Hf. destruct m as [l [a|e]]; cbv [mbind M_bind]; [|reflexivity].
  specialize (Hf a). destruct (f a) as [l' r]. simpl in *. subst. apply app_nil_r.
Qed.

Lemma validate_ok {A} (p : string) (k : M A) :
  path_exists p = true -> mbind (fun _ => k) (validate_input_file p) = k.
Proof.
  intros Hex. unfold FileInfo.validate_input_file. rewrite Hex.
  cbv [mbind M_bind mret M_ret]. destruct k. reflexivity.
Qed.

Lemma soxi_launch_log (p a : string) :
  In a SOXI_ARGS -> fst (soxi p a) = [soxi_launch p a].
Proof.
  intros Hin. apply soxi_args_In in Hin. unfold Core.soxi. rewrite Hin. simpl negb. cbv iota.
  unfold_monad. simpl. destruct (run_process _); [|reflexivity|reflexivity].
  destruct (Z.eqb _ 0); [|reflexivity]. destruct (decode_utf8 _); reflexivity.
Qed.

Lemma stat_launch_log (p : string) :
  path_exists p = true -> fst (stat p) = [stat_launch p].
Proof.
  intros Hex. unfold FileInfo.stat.
  rewrite fst_bind_quiet by reflexivity.
  unfold FileInfo._stat_call. rewrite validate_ok by exact Hex.
  rewrite fst_bind_quiet by (intros [[? ?] ?]; reflexivity).
  rewrite sox_launches. reflexivity.
Qed.

Lemma silent_launch_log (p : string) (t : PyFloat) :
  path_exists p = true -> fst (silent p t) = [stat_launch p].
Proof.
  intros Hex. unfold FileInfo.silent. rewrite validate_ok by exact Hex.
  rewrite fst_bind_quiet; [apply stat_launch_log; exact Hex|].
  intros d. destruct (d !! _) as [[m|]|]; [|reflexivity|reflexivity].
  unfold is_not_new_nan_object. destruct (fge m t); reflexivity.
Qed.

Ltac accessor_log :=
  intros Hex; cbv [FileInfo.bitdepth FileInfo.bitrate FileInfo.channels FileInfo.comments
                   FileInfo.duration FileInfo.encoding FileInfo.file_type
                   FileInfo.num_samples FileInfo.sample_rate];
  rewrite validate_ok by exact Hex;
  rewrite fst_bind_quiet by (intros o; repeat case_match; reflexivity);
  apply soxi_launch_log, soxi_args_In; reflexivity.

Lemma bitdepth_log p : path_exists p = true -> fst (bitdepth p) = [soxi_launch p "b"].
Proof. accessor_log. Qed.
Lemma bitrate_log p : path_exists p = true -> fst (bitrate p) = [soxi_launch p "B"].
Proof. accessor_log. Qed.
Lemma channels_log p : path_exists p = true -> fst (channels p) = [soxi_launch p "c"].
Proof. accessor_log. Qed.
Lemma comments_log p : path_exists p = true -> fst (comments p) = [soxi_launch p "a"].
Proof. accessor_log. Qed.
Lemma duration_log p : path_exists p = true -> fst (duration p) = [soxi_launch p "D"].
Proof. accessor_log. Qed.
Lemma encoding_log p : path_exists p = true -> fst (encoding p) = [soxi_launch p "e"].
Proof. accessor_log. Qed.
Lemma file_type_log p : path_exists p = true -> fst (file_type p) = [soxi_launch p "t"].
Proof. accessor_log. Qed.
Lemma num_samples_log p : path_exists p = true -> fst (num_samples p) = [soxi_launch p "s"].
Proof. accessor_log. Qed.
Lemma sample_rate_log p : path_exists p = true -> fst (sample_rate p) = [soxi_launch p "r"].
Proof. accessor_log. Qed.

(** The text accessors return [soxi]'s reply unchanged. *)
Lemma text_accessor_reply (p a : string) (k : M string) :
  path_exists p = true -> k = mbind (fun _ => mbind (fun o => mret o) (soxi p a)) (validate_input_file p) ->
  k = soxi p a.
Proof.
  intros Hex ->. rewrite validate_ok by exact Hex.
  destruct (soxi p a) as [l [o|e]]; cbv [mbind M_bind mret M_ret]; [rewrite app_nil_r|]; reflexivity.
Qed.

(** X1: every accessor validates its path first: for a path that does not
    exist, [bitdepth], [bitrate], [channels], [comments], [duration],
    [encoding], [file_type], [num_samples], [sample_rate], [stat], [silent]
    and [info] raise [IOError] and start no process. *)
Theorem accessors_missing_file_raise (p : string) (t : PyFloat) :
  path_exists p = false ->
  bitdepth p = ([], Raise IOError) /\ bitrate p = ([], Raise IOError) /\
  channels p = ([], Raise IOError) /\ comments p = ([], Raise IOError) /\
  duration p = ([], Raise IOError) /\ encoding p = ([], Raise IOError) /\
  file_type p = ([], Raise IOError) /\ num_samples p = ([], Raise IOError) /\
  sample_rate p = ([], Raise IOError) /\ stat p = ([], Raise IOError) /\
  silent p t = ([], Raise IOError) /\ info p = ([], Raise IOError).
Proof.
  intros Hno.
  cbv [FileInfo.info FileInfo.bitdepth FileInfo.bitrate FileInfo.channels FileInfo.comments
       FileInfo.duration FileInfo.encoding FileInfo.file_type FileInfo.num_samples
       FileInfo.sample_rate FileInfo.stat FileInfo._stat_call FileInfo.silent
       FileInfo.validate_input_file].
  rewrite !Hno. repeat split.
Qed.

(** X2: for an existing path, each accessor starts exactly one process:
    [sox --i -<code> <path>] with the code [b] for [bitdepth], [B] for
    [bitrate], [c] for [channels], [a] for [comments], [D] for [duration],
    [e] for [encoding], [t] for [file_type], [s] for [num_samples] and [r]
    for [sample_rate], and [sox <path> -n stat] for [stat] and [silent];
    [comments], [encoding] and [file_type] return [soxi]'s result
    unchanged. *)
Theorem accessor_launches (p : string) (t : PyFloat) :
  path_exists p = true ->
  fst (bitdepth p) = [soxi_launch p "b"] /\ fst (bitrate p) = [soxi_launch p "B"] /\
  fst (channels p) = [soxi_launch p "c"] /\ fst (comments p) = [soxi_launch p "a"] /\
  fst (duration p) = [soxi_launch p "D"] /\ fst (encoding p) = [soxi_launch p "e"] /\
  fst (file_type p) = [soxi_launch p "t"] /\ fst (num_samples p) = [soxi_launch p "s"] /\
  fst (sample_rate p) = [soxi_launch p "r"] /\
  fst (stat p) = [stat_launch p] /\ fst (silent p t) = [stat_launch p] /\
  comments p = soxi p "a" /\ encoding p = soxi p "e" /\ file_type p = soxi p "t".
Proof.
  intros Hex.
  split; [apply bitdepth_log; exact Hex|]. split; [apply bitrate_log; exact Hex|].
  split; [apply channels_log; exact Hex|]. split; [apply comments_log; exact Hex|].
  split; [apply duration_log; exact Hex|]. split; [apply encoding_log; exact Hex|].
  split; [apply file_type_log; exact Hex|]. split; [apply num_samples_log; exact Hex|].
  split; [apply sample_rate_log; exact Hex|]. split; [apply stat_launch_log; exact Hex|].
  split; [apply silent_launch_log; exact Hex|].
  split; [|split]; (eapply text_accessor_reply; [exact Hex | reflexivity]).
Qed.

Lemma validate_ret_exists {A} (p : string) (k : M A) (v : A) :
  snd (mbind (fun _ => k) (validate_input_file p)) = Ret v -> path_exists p = true.
Proof.
  unfold FileInfo.validate_input_file. destruct (path_exists p); [reflexivity|].
  cbv [mbind M_bind raise]. discriminate.
Qed.

(** X3: when [info] returns, it has run [channels], [sample_rate],
    [bitdepth], [bitrate], [duration], [num_samples], [encoding] and
    [silent] (threshold 0.001) in this order, each returning, and its
    dictionary holds their results under the keys ["channels"],
    ["sample_rate"], ["bitdepth"], ["bitrate"], ["duration"],
    ["num_samples"], ["encoding"] and ["silent"], in this order; the
    processes started are the seven [soxi] queries [-c], [-r], [-b], [-B],
    [-D], [-s], [-e] and then one [sox <path> -n stat]. *)
Theorem info_composes (p : string) (D : list (string * info_val)) :
  snd (info p) = Ret D ->
  exists c r b br d n e s,
    snd (channels p) = Ret c /\ snd (sample_rate p) = Ret r /\ snd (bitdepth p) = Ret b /\
    snd (bitrate p) = Ret br /\ snd (duration p) = Ret d /\ snd (num_samples p) = Ret n /\
    snd (encoding p) = Ret e /\ snd (silent p (PFin (1 # 1000))) = Ret s /\
    D = [("channels", IInt c); ("sample_rate", IFloat r); ("bitdepth", int_or_none b);
         ("bitrate", float_or_none br); ("duration", float_or_none d);
         ("num_samples", int_or_none n); ("encoding", IStr e); ("silent", IBool s)] /\
    fst (info p) = [soxi_launch p "c"; soxi_launch p "r"; soxi_launch p "b"; soxi_launch p "B";
                    soxi_launch p "D"; soxi_launch p "s"; soxi_launch p "e"; stat_launch p].
Proof.
  intros H. unfold FileInfo.info in *.
  apply bind_ret_inv in H as (c & Hc & H & F1).
  apply bind_ret_inv in H as (r & Hr & H & F2).
  apply bind_ret_inv in H as (b & Hb & H & F3).
  apply bind_ret_inv in H as (br & Hbr & H & F4).
  apply bind_ret_inv in H as (d & Hd & H & F5).
  apply bind_ret_inv in H as (n & Hn & H & F6).
  apply bind_ret_inv in H as (e & He & H & F7).
  apply bind_ret_inv in H as (s & Hs & H & F8).
  cbv [mret M_ret] in H. simpl in H. injection H as <-.
  assert (Hex : path_exists p = true) by (eapply validate_ret_exists; exact Hc).
  exists c, r, b, br, d, n, e, s.
  do 8 (split; [assumption|]). split; [reflexivity|].
  rewrite F1, F2, F3, F4, F5, F6, F7, F8.
  rewrite channels_log, sample_rate_log, bitdepth_log, bitrate_log, duration_log,
    num_samples_log, encoding_log, silent_launch_log by exact Hex.
  reflexivity.
Qed.

(* ------------------------------------------------------------------ *)
(** *** Bit-rate replies, [sox], [play] and the stat call *)

Lemma last_char_snoc (s : string) (c : ascii) : last_char (s +:+ String c "") = Some c.
Proof.
  induction s as [|a s IH]; [reflexivity|].
  change (last_char (String a (s +:+ String c "")) = Some c).
  destruct s as [|b s']; [reflexivity|]. exact IH.
Qed.

Lemma drop_last_snoc (s : string) (c : ascii) : drop_last (s +:+ String c "") = s.
Proof.
  induction s as [|a s IH]; [reflexivity|].
  change (drop_last (String a (s +:+ String c "")) = String a s).
  destruct s as [|b s']; [reflexivity|].
  change (String a (drop_last (String b s' +:+ String c "")) = String a (String b s')).
  rewrite IH. reflexivity.
Qed.

Lemma lstrip_keep (cs : list ascii) (s : string) :
  (s = "" \/ exists c rest, s = String c rest /\ char_in c cs = false) -> lstrip cs s = s.
Proof. intros [-> | (c & rest & -> & Hc)]; simpl; [reflexivity|]. rewrite Hc. reflexivity. Qed.

Lemma rstrip_keep (cs : list ascii) (s : string) :
  (s = "" \/ exists c, last_char s = Some c /\ char_in c cs = false) -> rstrip cs s = s.
Proof.
  induction s as [|a rest IH]; intros H; [reflexivity|].
  destruct H as [H | (c & Hl & Hc)]; [discriminate|]. simpl.
  destruct rest as [|b rest'].
  - simpl in Hl. injection Hl as ->. rewrite Hc, andb_false_r. reflexivity.
  - rewrite IH by (right; exists c; split; [exact Hl | exact Hc]). reflexivity.
Qed.

Lemma char_in_nl_cr (c : ascii) : char_in c [cr; nl] = char_in c [nl; cr].
Proof. unfold char_in. simpl. rewrite !orb_false_r. apply orb_comm. Qed.

(** A second [strip("\r\n")] of a text stripped of ["\n\r"] changes
    nothing. *)
Lemma strip_cr_nl_stripped (text : string) :
  strip [cr; nl] (strip [nl; cr] text) = strip [nl; cr] text.
Proof.
  destruct (strip_spec [nl; cr] text) as (pre & post & _ & _ & _ & He).
  set (t := strip [nl; cr] text) in *. unfold strip at 1.
  destruct He as [He | ((c & rest & Hf & Hc) & (c' & Hl & Hc'))].
  - rewrite He. reflexivity.
  - rewrite lstrip_keep by (right; exists c, rest; rewrite char_in_nl_cr; auto).
    apply rstrip_keep. right. exists c'. rewrite char_in_nl_cr. auto.
Qed.

Lemma soxi_ret_stripped (p a s : string) :
  snd (soxi p a) = Ret s -> exists text, s = strip [nl; cr] text.
Proof.
  unfold Core.soxi. destruct (negb _); [discriminate|]. unfold_monad. simpl.
  destruct (run_process _); try discriminate.
  destruct (Z.eqb _ 0); [|discriminate]. destruct (decode_utf8 _); [|discriminate].
  simpl. intros H. injection H as <-. eauto.
Qed.

Lemma snd_bind_lift {A B} (m : M A) (h : A -> res B) (a : A) :
  snd m = Ret a -> snd (mbind (fun o => lift_res (h o)) m) = h a.
Proof.
  destruct m as [l r]. simpl. intros ->. cbv [mbind M_bind lift_res]. destruct (h a); reflexivity.
Qed.

(** X4: [bitrate] on [soxi]'s reply: an empty reply raises [IndexError],
    ["0"] gives [None]; for any other reply, whose last character is [c]
    and the text before it [body], the result is [float(body)] times
    [1000 ** i] when [c.upper()] is at index [i] of ["\0KMGTPEZY"], and
    [float(body)] itself otherwise, the last character being dropped in
    both cases; a [body] that does not parse raises [ValueError]. *)
Theorem bitrate_reply_scaling (p body : string) (c : ascii) :
  path_exists p = true ->
  (snd (soxi p "B") = Ret "" -> snd (bitrate p) = Raise IndexError) /\
  (snd (soxi p "B") = Ret "0" -> snd (bitrate p) = Ret None) /\
  (snd (soxi p "B") = Ret (body +:+ String c "") -> body +:+ String c "" <> "0" ->
   snd (bitrate p) =
     match py_float body with
     | None => Raise ValueError
     | Some f => Ret (Some (match str_index (char_upper c) greek_prefixes with
                            | Some i => fmul f (fpow1000 i)
                            | None => f
                            end))
     end).
Proof.
  intros Hex. unfold FileInfo.bitrate. rewrite validate_ok by exact Hex.
  split; [|split].
  - intros H. rewrite (snd_bind_lift _ _ _ H). reflexivity.
  - intros H. rewrite (snd_bind_lift _ _ _ H). reflexivity.
  - intros H Hne. rewrite (snd_bind_lift _ _ _ H).
    destruct (soxi_ret_stripped _ _ _ H) as (text & Ht).
    assert (Hs : strip [cr; nl] (body +:+ String c "") = body +:+ String c "").
    { rewrite Ht. apply strip_cr_nl_stripped. }
    unfold bitrate_of_output. cbv zeta. rewrite !Hs.
    rewrite last_char_snoc. cbv iota beta. rewrite drop_last_snoc.
    apply String.eqb_neq in Hne. rewrite Hne.
    destruct (str_index _ _); destruct (py_float body); reflexivity.
Qed.

(** X5: [sox] on a process that ran to completion returns its exit code
    unchanged, zero or not, with its standard error decoded: without an
    array it returns the decoded standard output when
    [decode_out_with_utf] holds and the raw bytes otherwise; with an array
    it always returns the raw bytes. A standard error (or, when decoding,
    a standard output) that is not UTF-8 raises [UnicodeDecodeError],
    which is not caught. An empty argument list raises [IndexError]
    before any launch. *)
Theorem sox_completed_contract (args a : list string) (rc : Z) (out err : list Byte.byte) :
  (forall src dec, sox [] src dec = ([], Raise IndexError)) /\
  (normalize_head "sox" args = Some a ->
   (run_process (mkLaunch a None) = Launched rc out err ->
     (forall o e, decode_utf8 out = Some o -> decode_utf8 err = Some e ->
        sox args NoSrc true = ([mkLaunch a None], Ret (rc, Some (OStr o), Some e))) /\
     (forall e, decode_utf8 err = Some e ->
        sox args NoSrc false = ([mkLaunch a None], Ret (rc, Some (OBytes out), Some e))) /\
     (decode_utf8 out = None -> snd (sox args NoSrc true) = Raise UnicodeDecodeError) /\
     (decode_utf8 err = None -> forall dec, snd (sox args NoSrc dec) = Raise UnicodeDecodeError)) /\
   (forall arr : ndarray Elt,
     let L := mkLaunch a (Some (tobytes elem_bytes OrderF (transpose arr))) in
     run_process L = Launched rc out err ->
     (forall e dec, decode_utf8 err = Some e ->
        sox args (NdArr arr) dec = ([L], Ret (rc, Some (OBytes out), Some e))) /\
     (decode_utf8 err = None -> forall dec, snd (sox args (NdArr arr) dec) = Raise UnicodeDecodeError))).
Proof.
  split; [intros src dec; reflexivity|].
  intros Hn. unfold Core.sox. rewrite Hn. split.
  - intros Hr. unfold_monad. simpl. rewrite Hr. split; [|split; [|split]].
    + intros o e Ho He. rewrite Ho. simpl. rewrite He. reflexivity.
    + intros e He. simpl. rewrite He. reflexivity.
    + intros Ho. rewrite Ho. reflexivity.
    + intros He dec. destruct dec; simpl; [destruct (decode_utf8 out)|]; simpl;
        rewrite ?He; reflexivity.
  - intros arr Hr. unfold_monad. simpl. rewrite Hr. split.
    + intros e dec He. rewrite He. reflexivity.
    + intros He dec. rewrite He. reflexivity.
Qed.

(** X6: [play] starts its one process and returns [True] exactly when the
    process exits with status 0; a failed launch gives [False]; an empty
    argument list raises [IndexError] before any launch. *)
Theorem play_contract (args a : list string) :
  play [] = ([], Raise IndexError) /\
  (normalize_head "play" args = Some a ->
   (forall st o e, run_process (mkLaunch a None) = Launched st o e ->
      play args = ([mkLaunch a None], Ret (Z.eqb st 0))) /\
   (run_process (mkLaunch a None) = LaunchOSError \/
    run_process (mkLaunch a None) = LaunchTypeError ->
      play args = ([mkLaunch a None], Ret false))).
Proof.
  split; [reflexivity|]. intros Hn. unfold Core.play. rewrite Hn. unfold_monad. split.
  - intros st o e Hr. simpl. rewrite Hr. reflexivity.
  - intros [Hr | Hr]; simpl; rewrite Hr; reflexivity.
Qed.

Lemma normalize_head_canonical (name : string) (rest : list string) :
  String.eqb (lower name) name = true -> normalize_head name (name :: rest) = Some (name :: rest).
Proof. intros H. unfold normalize_head. rewrite H. reflexivity. Qed.

(** X7: the argument list [sox] (or [play]) launches is a fixed point of its
    normalisation: calling [sox] (or [play]) again with the arguments of a
    process it started starts a process with the same arguments. *)
Theorem relaunch_same_args :
  (forall args src dec L, In L (fst (sox args src dec)) ->
     forall src' dec' L', In L' (fst (sox (l_args L) src' dec')) -> l_args L' = l_args L) /\
  (forall args L, In L (fst (play args)) ->
     forall L', In L' (fst (play (l_args L))) -> l_args L' = l_args L).
Proof.
  split.
  - intros args src dec L HL src' dec' L' HL'.
    rewrite sox_launches in HL.
    destruct (normalize_head "sox" args) as [a|] eqn:Ea; [|destruct src; contradiction].
    assert (Hh : exists rest, l_args L = "sox" :: rest).
    { unfold normalize_head in Ea. destruct args as [|a0 r]; [discriminate|].
      destruct (negb _); injection Ea as <-;
        destruct src; simpl in HL; try contradiction; destruct HL as [<- | []]; simpl; eauto. }
    destruct Hh as (rest & Hr). rewrite sox_launches in HL'. rewrite Hr in HL' |- *.
    rewrite normalize_head_canonical in HL' by reflexivity.
    destruct src'; simpl in HL'; try contradiction; destruct HL' as [<- | []]; reflexivity.
  - intros args L HL L' HL'. rewrite play_launches in HL.
    destruct (normalize_head "play" args) as [a|] eqn:Ea; [|contradiction].
    destruct HL as [<- | []]. simpl in HL' |- *.
    assert (Hh : exists rest, a = "play" :: rest).
    { unfold normalize_head in Ea. destruct args as [|a0 r]; [discriminate|].
      destruct (negb _); injection Ea as <-; eauto. }
    destruct Hh as (rest & ->). rewrite play_launches in HL'.
    rewrite normalize_head_canonical in HL' by reflexivity.
    destruct HL' as [<- | []]. reflexivity.
Qed.

(** X8: the stat call never looks at the exit status of its [sox] run:
    whatever the status, [_stat_call] returns the run's standard error
    with every carriage return removed, and [stat] returns its parse; the
    standard output is still decoded, and when it is not UTF-8 [stat]
    raises [UnicodeDecodeError]. *)
Theorem stat_ignores_exit_code (p : string) (rc : Z) (out err : list Byte.byte) :
  path_exists p = true -> run_process (stat_launch p) = Launched rc out err ->
  (forall o e, decode_utf8 out = Some o -> decode_utf8 err = Some e ->
     _stat_call p = ([stat_launch p], Ret (Some (remove_char cr e))) /\
     stat p = ([stat_launch p], _parse_stat (Some (remove_char cr e)))) /\
  (decode_utf8 out = None -> stat p = ([stat_launch p], Raise UnicodeDecodeError)).
Proof.
  intros Hex Hr.
  assert (Hc : forall o e, decode_utf8 out = Some o -> decode_utf8 err = Some e ->
             _stat_call p = ([stat_launch p], Ret (Some (remove_char cr e)))).
  { intros o e Ho He. unfold FileInfo._stat_call. rewrite validate_ok by exact Hex.
    unfold Core.sox. simpl normalize_head. cbv iota. unfold_monad. simpl.
    unfold stat_launch in Hr. rewrite Hr, Ho. simpl. rewrite He. reflexivity. }
  split.
  - intros o e Ho He. split; [exact (Hc o e Ho He)|].
    unfold FileInfo.stat. rewrite (Hc o e Ho He). unfold_monad.
    destruct (_parse_stat _); reflexivity.
  - intros Ho. unfold FileInfo.stat, FileInfo._stat_call. rewrite validate_ok by exact Hex.
    unfold Core.sox. simpl normalize_head. cbv iota. unfold_monad. simpl.
    unfold stat_launch in Hr. rewrite Hr, Ho. reflexivity.
Qed.

(** X9: when the stat dictionary has no entry with the key
    ["Mean    norm"] (for instance a report whose line has spaces before
    the colon), [silent] raises [KeyError]. *)
Theorem silent_missing_mean_norm (fp : string) (t : PyFloat) (d : stat_dict) :
  snd (stat fp) = Ret d -> d !! "Mean    norm" = None -> snd (silent fp t) = Raise KeyError.
Proof.
  intros Hd Hv. pose proof (stat_ret_exists fp d Hd) as Hex.
  unfold FileInfo.silent. rewrite validate_ok by exact Hex.
  destruct (stat fp) as [ls r] eqn:Es. simpl in Hd. subst r.
  cbv [mbind M_bind]. rewrite Hv. reflexivity.
Qed.

(* ------------------------------------------------------------------ *)
(** *** The format probe, [is_number], [all_equal] and list validation *)

Local Abbreviation _get_valid_formats := (_get_valid_formats run_process decode_utf8).
Local Abbreviation validate_input_file_list := (validate_input_file_list path_exists).

Lemma str_split_nonempty (sep : ascii) (s : string) : str_split sep s <> [].
Proof.
  destruct s as [|c rest]; simpl; [discriminate|].
  destruct (Ascii.eqb c sep); [discriminate|]. destruct (str_split sep rest); discriminate.
Qed.

Lemma str_split_app_sep (sep : ascii) (a b : string) :
  str_split sep (a +:+ String sep b) = (str_split sep a ++ str_split sep b)%list.
Proof.
  induction a as [|c a IH].
  - change (str_split sep (String sep b) = "" :: str_split sep b). simpl.
    rewrite Ascii.eqb_refl. reflexivity.
  - change (str_split sep (String c (a +:+ String sep b)) =
            (str_split sep (String c a) ++ str_split sep b)%list).
    simpl. rewrite IH. destruct (Ascii.eqb c sep); [reflexivity|].
    destruct (str_split sep a) as [|p ps] eqn:E; [exfalso; exact (str_split_nonempty _ _ E)|].
    reflexivity.
Qed.

Lemma str_split_no_sep (sep : ascii) (s : string) :
  str_index sep s = None -> str_split sep s = [s].
Proof.
  induction s as [|c rest IH]; [reflexivity|]. simpl.
  destruct (Ascii.eqb sep c) eqn:E; [discriminate|].
  destruct (str_index sep rest); [discriminate|]. intros _.
  rewrite IH by reflexivity. rewrite Ascii.eqb_sym, E. reflexivity.
Qed.

(** Splitting a join gives the parts back, when none holds the separator. *)
Lemma str_split_join (sep : ascii) (fs : list string) :
  fs <> [] -> Forall (fun f => str_index sep f = None) fs -> str_split sep (join sep fs) = fs.
Proof.
  induction fs as [|f fs IH]; intros Hne Hf; [congruence|].
  inversion Hf as [|? ? Hf0 Hfs]; subst.
  destruct fs as [|g gs].
  - simpl. apply str_split_no_sep. exact Hf0.
  - change (str_split sep (f +:+ String sep (join sep (g :: gs))) = f :: g :: gs).
    rewrite str_split_app_sep, str_split_no_sep by exact Hf0.
    rewrite IH by (discriminate || exact Hfs). reflexivity.
Qed.

Lemma prefix_app (a b : string) : String.prefix a (a +:+ b) = true.
Proof.
  induction a as [|c a IH]; simpl; [destruct b; reflexivity|].
  destruct (ascii_dec c c); [exact IH | congruence].
Qed.

Lemma str_contains_app (a b : string) : str_contains a (a +:+ b) = true.
Proof.
  generalize (prefix_app a b). destruct (a +:+ b) as [|c r]; intros H; cbn [str_contains]; rewrite H;
    reflexivity.
Qed.

Lemma filter_all_false {A} (f : A -> bool) (xs : list A) :
  (forall x, In x xs -> f x = false) -> List.filter f xs = [].
Proof.
  induction xs as [|x xs IH]; intros H; [reflexivity|]. simpl.
  rewrite H by (left; reflexivity). apply IH. intros y Hy. apply H. right. exact Hy.
Qed.

Lemma filter_nth_none {A} (p : A -> bool) (l : list A) (d : A) :
  (forall x, In x l -> p x = false) ->
  List.filter (fun i => p (nth i l d)) (seq 0 (length l)) = [].
Proof.
  intros H. apply filter_all_false. intros i Hi. apply in_seq in Hi.
  apply H. apply nth_In. lia.
Qed.

(** The first index whose element satisfies [p]. *)
Lemma filter_nth_first {A} (p : A -> bool) (l1 l2 : list A) (x d : A) :
  (forall y, In y l1 -> p y = false) -> p x = true ->
  exists rest, List.filter (fun i => p (nth i (l1 ++ x :: l2) d))
                 (seq 0 (length (l1 ++ x :: l2))) = length l1 :: rest.
Proof.
  intros H1 Hx. rewrite length_app, seq_app, List.filter_app. simpl.
  rewrite (filter_all_false _ (seq 0 (length l1))).
  - simpl. rewrite nth_middle, Hx. eauto.
  - intros i Hi. apply in_seq in Hi. rewrite app_nth1 by lia. apply H1, nth_In. lia.
Qed.

Definition formats_marker : string := "AUDIO FILE FORMATS:".

(** X10: [_get_valid_formats] returns [[]] without starting any process
    when [NO_SOX] is set; otherwise it runs [sox -h] once, raises
    [CalledProcessError] on a non-zero exit and [IndexError] when no line
    of the help text contains ["AUDIO FILE FORMATS:"]; when the first line
    containing it is ["AUDIO FILE FORMATS: " + rest], the formats are
    [rest.split(" ")], which gives back exactly the listed formats when
    [rest] is them joined by single spaces. *)
Theorem get_valid_formats_contract :
  _get_valid_formats true = ([], Ret []) /\
  (forall rc out err, run_process (mkLaunch ["sox"; "-h"] None) = Launched rc out err ->
     rc <> 0%Z ->
     _get_valid_formats false = ([mkLaunch ["sox"; "-h"] None], Raise (CalledProcessError rc))) /\
  (forall out err text, run_process (mkLaunch ["sox"; "-h"] None) = Launched 0 out err ->
     decode_utf8 out = Some text ->
     (forall line, In line (str_split nl text) -> str_contains formats_marker line = false) ->
     _get_valid_formats false = ([mkLaunch ["sox"; "-h"] None], Raise IndexError)) /\
  (forall out err text l1 rest l2, run_process (mkLaunch ["sox"; "-h"] None) = Launched 0 out err ->
     decode_utf8 out = Some text ->
     str_split nl text = (l1 ++ (formats_marker +:+ String " " rest) :: l2)%list ->
     (forall line, In line l1 -> str_contains formats_marker line = false) ->
     _get_valid_formats false = ([mkLaunch ["sox"; "-h"] None], Ret (str_split " " rest)) /\
     (forall fs, fs <> [] -> Forall (fun f => str_index " " f = None) fs -> rest = join " " fs ->
        _get_valid_formats false = ([mkLaunch ["sox"; "-h"] None], Ret fs))).
Proof.
  split; [reflexivity|]. split; [|split].
  - intros rc out err Hr Hrc. unfold Core._get_valid_formats. unfold_monad.
    cbv iota beta. rewrite Hr. apply Z.eqb_neq in Hrc. rewrite Hrc. reflexivity.
  - intros out err text Hr Hd Hno. unfold Core._get_valid_formats. unfold_monad.
    cbv iota beta. rewrite Hr. simpl Z.eqb. cbv iota. rewrite Hd. cbv iota beta zeta.
    rewrite filter_nth_none by exact Hno. reflexivity.
  - intros out err text l1 rest l2 Hr Hd Hs H1.
    assert (Hres : _get_valid_formats false =
                   ([mkLaunch ["sox"; "-h"] None], Ret (str_split " " rest))).
    { unfold Core._get_valid_formats. unfold_monad.
      cbv iota beta. rewrite Hr. simpl Z.eqb. cbv iota. rewrite Hd. cbv iota beta zeta.
      rewrite Hs.
      destruct (filter_nth_first (str_contains formats_marker) l1 l2
                  (formats_marker +:+ String " " rest) "" H1 (str_contains_app _ _)) as (r & Hf).
      change "AUDIO FILE FORMATS:" with formats_marker.
      rewrite Hf, nth_middle. unfold formats_marker. rewrite str_split_app_sep. reflexivity. }
    split; [exact Hres|]. intros fs Hne Hf ->. rewrite Hres, str_split_join by assumption.
    reflexivity.
Qed.

Lemma lstrip_all (cs : list ascii) (s : string) : only_chars cs s = true -> lstrip cs s = "".
Proof.
  induction s as [|c r IH]; simpl; [reflexivity|]. intros H.
  apply andb_true_iff in H as [Hc Hr]. rewrite Hc. apply IH, Hr.
Qed.

Lemma rstrip_all (cs : list ascii) (s : string) : only_chars cs s = true -> rstrip cs s = "".
Proof.
  induction s as [|c r IH]; simpl; [reflexivity|]. intros H.
  apply andb_true_iff in H as [Hc Hr]. rewrite IH, Hc by exact Hr. reflexivity.
Qed.

Lemma lstrip_pre (cs : list ascii) (pre s : string) :
  only_chars cs pre = true -> lstrip cs (pre +:+ s) = lstrip cs s.
Proof.
  induction pre as [|c r IH]; intros H; [reflexivity|].
  simpl in H. apply andb_true_iff in H as [Hc Hr].
  change (lstrip cs (String c (r +:+ s)) = lstrip cs s). simpl. rewrite Hc. apply IH, Hr.
Qed.

Lemma lstrip_post (cs : list ascii) (s post : string) :
  only_chars cs post = true ->
  lstrip cs (s +:+ post) = if String.eqb (lstrip cs s) "" then "" else lstrip cs s +:+ post.
Proof.
  intros Hp. induction s as [|c r IH]; [apply lstrip_all; exact Hp|].
  change (lstrip cs (String c (r +:+ post)) =
          if String.eqb (lstrip cs (String c r)) "" then "" else lstrip cs (String c r) +:+ post).
  simpl. destruct (char_in c cs); [exact IH|]. reflexivity.
Qed.

Lemma rstrip_post (cs : list ascii) (s post : string) :
  only_chars cs post = true -> rstrip cs (s +:+ post) = rstrip cs s.
Proof.
  intros Hp. induction s as [|c r IH]; [apply rstrip_all; exact Hp|].
  change (rstrip cs (String c (r +:+ post)) = rstrip cs (String c r)).
  simpl. rewrite IH. reflexivity.
Qed.

(** [strip] ignores padding made of stripped characters. *)
Lemma strip_padding (cs : list ascii) (pre s post : string) :
  only_chars cs pre = true -> only_chars cs post = true ->
  strip cs (pre +:+ s +:+ post) = strip cs s.
Proof.
  intros Hpre Hpost. unfold strip. rewrite lstrip_pre, lstrip_post by assumption.
  destruct (String.eqb (lstrip cs s) "") eqn:E.
  - apply String.eqb_eq in E. rewrite E. reflexivity.
  - apply rstrip_post. exact Hpost.
Qed.

(** X11: [is_number] never raises on a string, a float, [None] or an
    object without a float conversion ([None] and such objects give
    [False], every float, NaN included, gives [True]); on a string it
    answers whether [float()] parses it, so whitespace padding on either
    side never changes its answer. *)
Theorem is_number_total_and_padding :
  (forall v, exists b, is_number v = Ret b) /\
  is_number ObjNone = Ret false /\ is_number ObjOther = Ret false /\
  (forall f, is_number (ObjFloat f) = Ret true) /\
  (forall s, is_number (ObjStr s) = Ret (if py_float s then true else false)) /\
  (forall pre s post, only_chars py_whitespace pre = true -> only_chars py_whitespace post = true ->
     is_number (ObjStr (pre +:+ s +:+ post)) = is_number (ObjStr s)).
Proof.
  split; [|split; [reflexivity|split; [reflexivity|split; [reflexivity|split]]]].
  - intros [s|f| |]; unfold is_number, float_of_obj; eauto.
    destruct (py_float s); eauto.
  - intros s. unfold is_number, float_of_obj. destruct (py_float s); reflexivity.
  - intros pre s post Hpre Hpost. unfold is_number, float_of_obj, py_float.
    rewrite strip_padding by assumption. reflexivity.
Qed.

(** X12: [all_equal] holds exactly when no two elements of the list
    differ; in particular for the empty list and any one-element list. *)
Theorem all_equal_iff `{Countable A} (l : list A) :
  all_equal l = true <-> forall x y, In x l -> In y l -> x = y.
Proof.
  unfold all_equal. rewrite bool_decide_eq_true. split.
  - intros Hs x y Hx Hy. destruct (decide (x = y)) as [|Hne]; [assumption|exfalso].
    assert (Hsub : ({[x]} ∪ {[y]} : gset A) ⊆ list_to_set l).
    { intros z Hz. apply elem_of_list_to_set. apply elem_of_union in Hz as [Hz|Hz];
        apply elem_of_singleton in Hz; subst; apply list_elem_of_In; assumption. }
    apply subseteq_size in Hsub. rewrite size_union in Hsub by set_solver.
    rewrite !size_singleton in Hsub. lia.
  - intros Hall. destruct l as [|x l'].
    + rewrite list_to_set_nil, size_empty. lia.
    + assert (Heq : (list_to_set (x :: l') : gset A) = {[x]}).
      { apply set_eq. intros z. rewrite elem_of_list_to_set, elem_of_singleton. split.
        - intros Hz. apply list_elem_of_In in Hz. apply Hall; [exact Hz | left; reflexivity].
        - intros ->. apply list_elem_of_In. left. reflexivity. }
      rewrite Heq, size_singleton. lia.
Qed.

Lemma validate_each_result (l : list string) :
  FileInfo.validate_each path_exists l =
    ([], if forallb path_exists l then Ret () else Raise IOError).
Proof.
  induction l as [|p ps IH]; [reflexivity|]. simpl.
  unfold FileInfo.validate_input_file. destruct (path_exists p); simpl; [|reflexivity].
  rewrite IH. reflexivity.
Qed.

(** X13: [validate_input_file_list] raises [TypeError] for a non-list and
    [ValueError] for a list of fewer than two paths, whether they exist or
    not; for two or more it succeeds exactly when every path exists and
    raises [IOError] otherwise; it never starts a process. *)
Theorem validate_input_file_list_contract :
  validate_input_file_list NotAList = ([], Raise TypeError) /\
  (forall l, length l < 2 -> validate_input_file_list (PyList l) = ([], Raise ValueError)) /\
  (forall l, 2 <= length l ->
     validate_input_file_list (PyList l) =
       ([], if forallb path_exists l then Ret () else Raise IOError)).
Proof.
  split; [reflexivity|]. split.
  - intros l Hl. unfold FileInfo.validate_input_file_list.
    apply Nat.ltb_lt in Hl. rewrite Hl. reflexivity.
  - intros l Hl. unfold FileInfo.validate_input_file_list.
    assert (E : (length l <? 2) = false) by (apply Nat.ltb_ge; exact Hl).
    rewrite E. apply validate_each_result.
Qed.

Lemma digit_run_head (s : string) (d : nat) (ds : list nat) (r : string) :
  digit_run s = (d :: ds, r) -> exists c rest, s = String c rest /\ digit_val c = Some d.
Proof.
  destruct s as [|c rest]; simpl; [discriminate|].
  destruct (digit_val c) as [d'|] eqn:Ec; [|discriminate].
  intros H. exists c, rest. split; [reflexivity|].
  destruct rest as [|u [|c2 r2]];
    [ | | destruct (Ascii.eqb u "_"%char && is_digit c2)];
    repeat match type of H with
           | context [let '(_, _) := ?x in _] => destruct x
           end; injection H as <- _ _; exact Ec.
Qed.

Lemma digit_lower (c : ascii) (d : nat) : digit_val c = Some d -> char_lower c = c.
Proof.
  unfold digit_val, char_lower. intros H.
  destruct ((48 <=? nat_of_ascii c) && (nat_of_ascii c <=? 57)) eqn:E; [|discriminate].
  apply andb_true_iff in E as [_ E]. apply Nat.leb_le in E.
  assert (E2 : (65 <=? nat_of_ascii c) = false) by (apply Nat.leb_gt; lia).
  rewrite E2. reflexivity.
Qed.

(** Every string [int()] accepts, [float()] accepts with the same value. *)
Lemma py_int_py_float (s : string) (z : Z) :
  py_int s = Some z -> py_float s = Some (PFin (Qred (inject_Z z))).
Proof.
  unfold py_int, py_float. destruct (take_sign (strip py_whitespace s)) as [neg body].
  destruct (digit_run body) as [[|d ds] r] eqn:Ed; [discriminate|].
  destruct r as [|c0 r]; [|discriminate]. intros H. injection H as <-.
  destruct (digit_run_head _ _ _ _ Ed) as (c & rest & -> & Hc).
  assert (Hl : lower (String c rest) = String c (lower rest)).
  { unfold lower. simpl. rewrite (digit_lower c d Hc). reflexivity. }
  assert (Hni : forall t, String.eqb (String c (lower rest)) (String "i"%char t) = false).
  { intros t. simpl. destruct (Ascii.eqb c "i"%char) eqn:E; [|reflexivity].
    apply Ascii.eqb_eq in E. subst c. vm_compute in Hc. discriminate. }
  assert (Hnn : String.eqb (String c (lower rest)) "nan" = false).
  { simpl. destruct (Ascii.eqb c "n"%char) eqn:E; [|reflexivity].
    apply Ascii.eqb_eq in E. subst c. vm_compute in Hc. discriminate. }
  rewrite Hl, !Hni, Hnn. simpl orb. cbv iota.
  unfold decimal_literal. rewrite Ed. simpl exponent_part.
  f_equal. f_equal. unfold decimal_value. rewrite app_nil_r.
  destruct neg; apply Qred_complete.
  - rewrite Qred_correct, inject_Z_opp. simpl. ring.
  - simpl. ring.
Qed.

(** X14: an integer reply [n] of [soxi -r] gives [sample_rate] the value
    [n] as a float, and an integer reply of [soxi -D] gives [duration] the
    value [n] as a float, or [None] for 0. *)
Theorem integer_replies_as_floats (p s : string) (n : Z) :
  path_exists p = true -> py_int s = Some n ->
  (snd (soxi p "r") = Ret s -> snd (sample_rate p) = Ret (PFin (Qred (inject_Z n)))) /\
  (snd (soxi p "D") = Ret s ->
     snd (duration p) = Ret (if Z.eqb n 0 then None else Some (PFin (Qred (inject_Z n))))).
Proof.
  intros Hex Hi. pose proof (py_int_py_float s n Hi) as Hf. split.
  - intros Hr. unfold FileInfo.sample_rate. rewrite validate_ok by exact Hex.
    destruct (soxi p "r") as [l r] eqn:E. simpl in Hr. subst r.
    cbv [mbind M_bind]. rewrite Hf. reflexivity.
  - intros Hr. unfold FileInfo.duration. rewrite (validate_ok p _ Hex), (snd_bind_lift _ _ _ Hr).
    unfold duration_of_output. rewrite Hf. unfold feq0.
    destruct (Z.eqb n 0) eqn:En.
    + apply Z.eqb_eq in En. subst n. reflexivity.
    + assert (Hq : Qeq_bool (Qred (inject_Z n)) 0 = false).
      { apply not_true_iff_false. intros Hq. apply Qeq_bool_iff in Hq.
        rewrite Qred_correct in Hq. apply Z.eqb_neq in En. apply En.
        unfold Qeq in Hq. simpl in Hq. lia. }
      rewrite Hq. reflexivity.
Qed.

(* ------------------------------------------------------------------ *)
(** *** Extensions and letter case *)

Section CaseMap.

(** A character map leaving slashes and dots, and lower-case forms, as
    they are: [str.upper] and [str.lower] are such maps. *)
Variable f : ascii -> ascii.
Hypothesis f_slash : forall c, Ascii.eqb (f c) "/"%char = Ascii.eqb c "/"%char.
Hypothesis f_dot : forall c, Ascii.eqb (f c) "."%char = Ascii.eqb c "."%char.
Hypothesis f_lower : forall c, char_lower (f c) = char_lower c.











End CaseMap.



End Proofs.

(* ------------------------------------------------------------------ *)
(** ** The properties on concrete inputs *)

Lemma sox_launch_failure_sentinel_witness :
  snd (sox proc_oserror decode_ascii Byte.byte byte_of_elem ["in.wav"; "-n"] NoSrc true)
  = Ret (1%Z, None, None).
Proof.
  apply (proj1 (sox_launch_failure_sentinel proc_oserror decode_ascii Byte.byte byte_of_elem
                  ["in.wav"; "-n"] true) NoSrc (mkLaunch ["sox"; "in.wav"; "-n"] None)).
  - vm_compute. left. reflexivity.
  - left. reflexivity.
Defined.

Lemma exec_args_canonical_name_witness :
  l_args (mkLaunch ["sox"; "in.wav"] None) = ["sox"; "in.wav"] /\
  l_args (mkLaunch ["play"; "in.wav"] None) = ["play"; "in.wav"].
Proof.
  destruct (exec_args_canonical_name proc_oserror decode_ascii Byte.byte byte_of_elem
              "SoX" ["in.wav"] NoSrc true) as [Hs _].
  destruct (exec_args_canonical_name proc_oserror decode_ascii Byte.byte byte_of_elem
              "in.wav" [] NoSrc true) as [_ Hp].
  split.
  - apply Hs. vm_compute. left. reflexivity.
  - apply Hp. vm_compute. left. reflexivity.
Defined.

Lemma stat_launch_failure_raises_witness :
  snd (stat proc_oserror decode_ascii all_exist Byte.byte byte_of_elem "in.wav")
  = Raise AttributeError.
Proof.
  exact (proj1 (proj2 (stat_launch_failure_raises proc_oserror decode_ascii all_exist
                         Byte.byte byte_of_elem "in.wav" eq_refl (or_introl eq_refl)))).
Defined.

Lemma validate_output_file_contract_witness :
  validate_output_file all_exist (fun _ => false) "/home/u" ["wav"] "out/x.wav" = Raise IOError.
Proof.
  exact (proj1 (proj2 (validate_output_file_contract all_exist (fun _ => false) "/home/u" ["wav"])
                  "out/x.wav" ltac:(discriminate)) eq_refl).
Defined.

Lemma accessor_reply_sentinels_witness :
  bitdepth_of_output "16" = Ret (Some 16%Z) /\ num_samples_of_output "16" = Ret (Some 16%Z).
Proof.
  apply (proj1 (proj2 (accessor_reply_sentinels "16")) 16%Z).
  - discriminate.
  - reflexivity.
Defined.

Lemma silent_decided_by_mean_norm_witness :
  snd (silent (proc_stat_report "Mean    norm:      0.0005") decode_ascii all_exist
         Byte.byte byte_of_elem "in.wav" (PFin (1 # 1000))) = Ret true.
Proof.
  pose proof (silent_decided_by_mean_norm (proc_stat_report "Mean    norm:      0.0005")
                decode_ascii all_exist Byte.byte byte_of_elem "in.wav" (PFin (1 # 1000))
                ({[ "Mean    norm" := Some (PFin (1 # 2000)) ]} : stat_dict)
                (Some (PFin (1 # 2000)))) as H.
  rewrite (proj1 (H ltac:(vm_compute; reflexivity) ltac:(vm_compute; reflexivity))).
  reflexivity.
Defined.

Lemma parse_stat_entries_witness :
  exists d, _parse_stat (Some "Mean    norm:  0.5") = Ret d /\
            d !! "Mean    norm" = Some (Some (PFin (1 # 2))).
Proof.
  destruct (proj1 (parse_stat_entries "Mean    norm:  0.5")) as (d & Hd & Hiff).
  exists d. split; [exact Hd|]. apply Hiff.
  exists [], "Mean    norm:  0.5", [], "  0.5".
  split; [vm_compute; reflexivity|]. split; [vm_compute; reflexivity|].
  split; [vm_compute; reflexivity|]. intros _ [].
Defined.

Lemma soxi_contract_witness :
  soxi (proc_reply 2 []) decode_ascii "in.wav" "x" = ([], Raise ValueError) /\
  soxi (proc_reply 2 []) decode_ascii "in.wav" "b" =
    ([mkLaunch ["sox"; "--i"; "-b"; "in.wav"] None], Raise (SoxiError 2)).
Proof.
  split.
  - apply (proj1 (soxi_contract (proc_reply 2 []) decode_ascii "in.wav" "x")).
    simpl. intuition discriminate.
  - apply (proj1 (proj2 (soxi_contract (proc_reply 2 []) decode_ascii "in.wav" "b")
                    ltac:(simpl; tauto)) 2%Z [] []).
    + reflexivity.
    + discriminate.
Defined.

Lemma sox_stdin_row_major_witness :
  l_stdin (mkLaunch ["sox"; "-"; "out.wav"] (Some [Byte.x00; Byte.x01; Byte.x10; Byte.x11]))
  = Some (tobytes byte_of_elem OrderC arr22).
Proof.
  apply (proj2 (sox_stdin_row_major (proc_reply 0 []) decode_ascii Byte.byte byte_of_elem
                  ["-"; "out.wav"] arr22 false _ ltac:(vm_compute; left; reflexivity))).
Defined.

Lemma accessors_missing_file_raise_witness :
  bitdepth proc_oserror decode_ascii (fun _ => false) "missing.wav" = ([], Raise IOError).
Proof.
  exact (proj1 (accessors_missing_file_raise proc_oserror decode_ascii (fun _ => false)
                  Byte.byte byte_of_elem "missing.wav" PNaN eq_refl)).
Defined.

Lemma accessor_launches_witness :
  fst (channels (proc_reply 0 []) decode_ascii all_exist "x.wav") = [soxi_launch "x.wav" "c"].
Proof.
  exact (proj1 (proj2 (proj2 (accessor_launches (proc_reply 0 []) decode_ascii all_exist
                                Byte.byte byte_of_elem "x.wav" PNaN eq_refl)))).
Defined.

Lemma info_composes_witness :
  fst (info proc_info decode_ascii all_exist Byte.byte byte_of_elem "x.wav") =
    [soxi_launch "x.wav" "c"; soxi_launch "x.wav" "r"; soxi_launch "x.wav" "b";
     soxi_launch "x.wav" "B"; soxi_launch "x.wav" "D"; soxi_launch "x.wav" "s";
     soxi_launch "x.wav" "e"; stat_launch "x.wav"].
Proof.
  destruct (info_composes proc_info decode_ascii all_exist Byte.byte byte_of_elem "x.wav"
              [("channels", IInt 2); ("sample_rate", IFloat (PFin 44100));
               ("bitdepth", IInt 16); ("bitrate", IFloat (PFin 1410000));
               ("duration", IFloat (PFin (7 # 2))); ("num_samples", IInt 154350);
               ("encoding", IStr "Signed Integer PCM"); ("silent", IBool false)]
              ltac:(vm_compute; reflexivity))
    as (c & r & b & br & d & n & e & s & _ & _ & _ & _ & _ & _ & _ & _ & _ & H).
  exact H.
Defined.

Lemma bitrate_reply_scaling_witness :
  snd (bitrate (proc_reply 0 (list_byte_of_string "128k")) decode_ascii all_exist "x.wav")
  = Ret (Some (PFin 128000)).
Proof.
  rewrite (proj2 (proj2 (bitrate_reply_scaling (proc_reply 0 (list_byte_of_string "128k"))
                           decode_ascii all_exist "x.wav" "128" "k"%char eq_refl))
             ltac:(vm_compute; reflexivity) ltac:(discriminate)).
  vm_compute. reflexivity.
Defined.

Lemma sox_completed_contract_witness :
  sox (proc_reply 3 [Byte.x01]) decode_ascii Byte.byte byte_of_elem ["in.wav"; "-n"] NoSrc false
  = ([mkLaunch ["sox"; "in.wav"; "-n"] None], Ret (3%Z, Some (OBytes [Byte.x01]), Some "")).
Proof.
  exact (proj1 (proj2 (proj1 (proj2 (sox_completed_contract (proc_reply 3 [Byte.x01]) decode_ascii
                                        Byte.byte byte_of_elem ["in.wav"; "-n"] ["sox"; "in.wav"; "-n"]
                                        3%Z [Byte.x01] []) eq_refl) eq_refl)) "" eq_refl).
Defined.

Lemma play_contract_witness :
  play (proc_reply 1 []) ["song.wav"] = ([mkLaunch ["play"; "song.wav"] None], Ret false).
Proof.
  exact (proj1 (proj2 (play_contract (proc_reply 1 []) ["song.wav"] ["play"; "song.wav"]) eq_refl)
           1%Z [] [] eq_refl).
Defined.

Lemma relaunch_same_args_witness :
  l_args (mkLaunch ["sox"; "in.wav"; "out.wav"] None) = ["sox"; "in.wav"; "out.wav"].
Proof.
  apply (proj1 (relaunch_same_args (proc_reply 0 []) decode_ascii Byte.byte byte_of_elem)
           ["SoX"; "in.wav"; "out.wav"] NoSrc true (mkLaunch ["sox"; "in.wav"; "out.wav"] None)
           ltac:(vm_compute; left; reflexivity) NoSrc false).
  vm_compute. left. reflexivity.
Defined.

Lemma stat_ignores_exit_code_witness :
  stat (fun _ => Launched 2 [] (list_byte_of_string "x: 1")) decode_ascii all_exist
       Byte.byte byte_of_elem "in.wav"
  = ([stat_launch "in.wav"], _parse_stat (Some "x: 1")).
Proof.
  exact (proj2 (proj1 (stat_ignores_exit_code (fun _ => Launched 2 [] (list_byte_of_string "x: 1"))
                         decode_ascii all_exist Byte.byte byte_of_elem "in.wav" 2%Z []
                         (list_byte_of_string "x: 1") eq_refl eq_refl) "" "x: 1" eq_refl eq_refl)).
Defined.

Lemma silent_missing_mean_norm_witness :
  snd (silent (proc_stat_report "Mean    norm   :  0.5") decode_ascii all_exist
         Byte.byte byte_of_elem "in.wav" (PFin (1 # 1000))) = Raise KeyError.
Proof.
  apply (silent_missing_mean_norm (proc_stat_report "Mean    norm   :  0.5") decode_ascii
           all_exist Byte.byte byte_of_elem "in.wav" (PFin (1 # 1000))
           ({[ "Mean    norm   " := Some (PFin (1 # 2)) ]} : stat_dict)).
  - vm_compute. reflexivity.
  - vm_compute. reflexivity.
Defined.

Lemma get_valid_formats_contract_witness :
  _get_valid_formats (proc_reply 0 (list_byte_of_string help_text)) decode_ascii false
  = ([mkLaunch ["sox"; "-h"] None], Ret ["8svx"; "aif"; "wav"]).
Proof.
  apply (proj2 (proj2 (proj2 (proj2 (get_valid_formats_contract
                                       (proc_reply 0 (list_byte_of_string help_text)) decode_ascii)))
             (list_byte_of_string help_text) [] help_text ["SoX v14"] "8svx aif wav" [""] eq_refl
             ltac:(vm_compute; reflexivity) ltac:(vm_compute; reflexivity)
             ltac:(intros line [<- | []]; vm_compute; reflexivity))
           ["8svx"; "aif"; "wav"]).
  - discriminate.
  - repeat constructor.
  - reflexivity.
Defined.

Lemma is_number_total_and_padding_witness :
  is_number (ObjStr " 1.5 ") = is_number (ObjStr "1.5") /\ is_number (ObjStr "1.5") = Ret true.
Proof.
  split.
  - exact (proj2 (proj2 (proj2 (proj2 (proj2 is_number_total_and_padding)))) " " "1.5" " "
             eq_refl eq_refl).
  - exact (proj1 (proj2 (proj2 (proj2 (proj2 is_number_total_and_padding)))) "1.5").
Defined.

Lemma all_equal_iff_witness : all_equal [7; 7]%Z = true.
Proof.
  apply (proj2 (all_equal_iff [7; 7]%Z)).
  intros x y [<- | [<- | []]] [<- | [<- | []]]; reflexivity.
Defined.

Lemma validate_input_file_list_contract_witness :
  validate_input_file_list all_exist (PyList ["a.wav"]) = ([], Raise ValueError) /\
  validate_input_file_list all_exist (PyList ["a.wav"; "b.wav"]) = ([], Ret ()).
Proof.
  split.
  - exact (proj1 (proj2 (validate_input_file_list_contract all_exist)) ["a.wav"] ltac:(simpl; lia)).
  - exact (proj2 (proj2 (validate_input_file_list_contract all_exist)) ["a.wav"; "b.wav"]
             ltac:(simpl; lia)).
Defined.

Lemma integer_replies_as_floats_witness :
  snd (sample_rate (proc_reply 0 (list_byte_of_string "44100")) decode_ascii all_exist "x.wav")
  = Ret (PFin 44100).
Proof.
  rewrite (proj1 (integer_replies_as_floats (proc_reply 0 (list_byte_of_string "44100"))
                    decode_ascii all_exist "x.wav" "44100" 44100%Z eq_refl
                    ltac:(vm_compute; reflexivity)) ltac:(vm_compute; reflexivity)).
  vm_compute. reflexivity.
Defined.

(** C3 fails as stated: the example line keeps the spaces before its colon
    in its key, so there is no ["Mean    norm"] entry; and of two lines with
    one colon and the same key, the first gives no entry. *)
Lemma parse_stat_example_key_cex :
  (forall d, _parse_stat (Some "Mean    norm         :      0.164103") = Ret d ->
             d !! "Mean    norm" <> Some (Some (PFin (164103 # 1000000)))) /\
  (forall d, _parse_stat (Some (String.append "a:1" (String nl "a:2"))) = Ret d ->
             d !! "a" <> Some (Some (PFin 1))).
Proof.
  split; intros d H; vm_compute in H; injection H as <-; vm_compute; discriminate.
Qed.

(** C4 fails as stated: a leading newline of the output is removed too. *)
Lemma soxi_leading_newline_cex :
  let out := list_byte_of_string (String nl (String "5"%char (String nl ""))) in
  snd (soxi (proc_reply 0 out) decode_ascii "in.wav" "c") = Ret "5" /\
  snd (soxi (proc_reply 0 out) decode_ascii "in.wav" "c") <> Ret (String nl "5").
Proof. vm_compute. split; [reflexivity | discriminate]. Qed.

(** C6 fails as stated: for the 2x2 array the bytes written are in C
    order, not in the array's Fortran order. *)
Lemma sox_stdin_not_fortran_cex :
  map l_stdin (fst (sox (proc_reply 0 []) decode_ascii Byte.byte byte_of_elem
                      ["-"; "out.wav"] (NdArr arr22) false))
    = [Some [Byte.x00; Byte.x01; Byte.x10; Byte.x11]] /\
  tobytes byte_of_elem OrderF arr22 = [Byte.x00; Byte.x10; Byte.x01; Byte.x11] /\
  map l_stdin (fst (sox (proc_reply 0 []) decode_ascii Byte.byte byte_of_elem
                      ["-"; "out.wav"] (NdArr arr22) false))
    <> [Some (tobytes byte_of_elem OrderF arr22)].
Proof. vm_compute. split; [reflexivity|]. split; [reflexivity | discriminate]. Qed.

(** C7 fails as stated: with a NaN threshold, a mean norm of 0.5 is not
    below the threshold, yet the file is reported silent. *)
Lemma silent_nan_threshold_cex :
  snd (stat (proc_stat_report "Mean    norm:  0.5") decode_ascii all_exist
         Byte.byte byte_of_elem "in.wav")
    = Ret ({[ "Mean    norm" := Some (PFin (1 # 2)) ]} : stat_dict) /\
  snd (silent (proc_stat_report "Mean    norm:  0.5") decode_ascii all_exist
         Byte.byte byte_of_elem "in.wav" PNaN) = Ret true /\
  flt (PFin (1 # 2)) PNaN = false.
Proof. split; [vm_compute; reflexivity|]. split; reflexivity. Qed.
